(** * wearedood/web3: gas-fee tiers, builder eligibility and activity score

    A shallow embedding of the computations of
    - [BaseGasOptimizer.getOptimalGas]           (Base blockchain integration module, ES module),
    - [BaseDeFiUtils.getOptimalGasFees],
      [BaseBuilderTracker.getContractsDeployed],
      [BaseBuilderTracker.getBuilderMetrics],
      [BaseAnalytics.checkRewardsEligibility],
      [BaseAnalytics.getRecommendations]         (base-builder-utilities.js),
    - [BaseIntegration.calculateActivityScore]   (BaseIntegration.js),
    followed by the properties the specification states about them; and of
    - [BaseGasOptimizer.batchTransactions], [BaseIntegration.getBalance],
      [BaseIntegration.sendETH]                  (Base blockchain integration module),
    - the constructor, [initializeWallet], [deployContract], [callContract],
      [sendTransaction], [getOptimizationRecommendations] (BaseIntegration.js),
    - [BaseDeFiUtils.estimateBridgeCost], [utils.getTxUrl],
      [utils.getAddressUrl], [utils.isValidAddress] (base-builder-utilities.js),
    with the properties the code itself shows.

    Conventions.
    - A JavaScript BigInt is a [Z]; BigInt [/] truncates toward zero ([Z.quot]).
    - A fee field of ethers' fee data is [null] or a BigInt ([JS.value]).
    - Values obtained from awaited RPC calls are read from a [Chain] record.
    - [Math.random()] and [new Date()] read the [World]; a call returns the
      next world together with its result.
    - Binary64 arithmetic is modelled over [Q] with an explicit rounding
      function [fl] (the value of a real number as a double). *)

From Stdlib Require Import ZArith QArith Qround Lia String Ascii.
From stdpp Require Import base gmap strings.

Local Open Scope Z_scope.

(** ** JavaScript values and completions *)

Module JS.

(** The exceptions BigInt arithmetic can raise. *)
Inductive exn : Type :=
| TypeError   (* "Cannot mix BigInt and other types" *)
| RangeError  (* "Division by zero" *).

(** The outcome of evaluating an expression: a value, or a thrown exception. *)
Inductive completion (A : Type) : Type :=
| Normal (a : A)
| Throw (e : exn).

Arguments Normal {A} a.
Arguments Throw {A} e.

Definition bind {A B : Type} (c : completion A) (k : A -> completion B) : completion B :=
  match c with
  | Normal a => k a
  | Throw e => Throw e
  end.

Definition throws {A : Type} (c : completion A) : bool :=
  match c with
  | Normal _ => false
  | Throw _ => true
  end.

(** A fee field: [null] (the network reports no such fee) or a BigInt. *)
Inductive value : Type :=
| Null
| BigInt (n : Z).

(** [a * BigInt(k)]: the right operand is a BigInt, so a left operand of
    another type makes the multiplication throw. *)
Definition mul_bigint (a : value) (k : Z) : completion value :=
  match a with
  | BigInt x => Normal (BigInt (x * k))
  | Null => Throw TypeError
  end.

(** [a / BigInt(k)]: BigInt division truncates toward zero and throws on a
    zero divisor. *)
Definition div_bigint (a : value) (k : Z) : completion value :=
  match a with
  | BigInt x => if k =? 0 then Throw RangeError else Normal (BigInt (Z.quot x k))
  | Null => Throw TypeError
  end.

(** Order on fee values; it relates BigInts only. *)
Definition value_le (a b : value) : Prop :=
  match a, b with
  | BigInt x, BigInt y => x <= y
  | _, _ => False
  end.

End JS.

Notation "'let!' x ':=' c 'in' k" := (JS.bind c (fun x => k))
  (at level 10, x name, c at level 100, k at level 200).

(** ** BaseGasOptimizer (Base blockchain integration module) *)

Module BaseGasOptimizer.
Import JS.

(** What [provider.getFeeData()] resolves to. *)
Record FeeData : Type := mkFeeData {
  gasPrice : value;
  maxFeePerGas : value;
  maxPriorityFeePerGas : value
}.

(** The field that is read of the block [provider.getBlock(blockNumber)]
    resolves to; the promise may also resolve to [null]. *)
Record Block : Type := mkBlock {
  baseFeePerGas : value
}.

Record Tier : Type := mkTier {
  tierMaxFeePerGas : value;
  tierMaxPriorityFeePerGas : value
}.

Record Recommended : Type := mkRecommended {
  slow : Tier;
  standard : Tier;
  fast : Tier
}.

Record OptimalGas : Type := mkOptimalGas {
  og_gasPrice : value;
  og_maxFeePerGas : value;
  og_maxPriorityFeePerGas : value;
  og_baseFeePerGas : value;
  recommended : Recommended
}.

(** The recurring expression [v * BigInt(pct) / BigInt(100)]. *)
Definition percent (v : value) (pct : Z) : completion value :=
  let! t := mul_bigint v pct in div_bigint t 100.

(** [block.baseFeePerGas]: reading a property of [null] throws. *)
Definition readBaseFeePerGas (block : option Block) : completion value :=
  match block with
  | Some blk => Normal (baseFeePerGas blk)
  | None => Throw TypeError
  end.

(** [getOptimalGas()], given the fee data and the block it awaited.  The
    fields of the returned object literal are evaluated in source order. *)
Definition getOptimalGas (feeData : FeeData) (block : option Block) : completion OptimalGas :=
  let! blockBaseFee := readBaseFeePerGas block in
  let! slowFee := percent (maxFeePerGas feeData) 90 in
  let! slowPriority := percent (maxPriorityFeePerGas feeData) 90 in
  let! fastFee := percent (maxFeePerGas feeData) 110 in
  let! fastPriority := percent (maxPriorityFeePerGas feeData) 110 in
  Normal {|
    og_gasPrice := gasPrice feeData;
    og_maxFeePerGas := maxFeePerGas feeData;
    og_maxPriorityFeePerGas := maxPriorityFeePerGas feeData;
    og_baseFeePerGas := blockBaseFee;
    recommended := {|
      slow := {| tierMaxFeePerGas := slowFee;
                 tierMaxPriorityFeePerGas := slowPriority |};
      standard := {| tierMaxFeePerGas := maxFeePerGas feeData;
                     tierMaxPriorityFeePerGas := maxPriorityFeePerGas feeData |};
      fast := {| tierMaxFeePerGas := fastFee;
                 tierMaxPriorityFeePerGas := fastPriority |}
    |}
  |}.

Definition tier_le (a b : Tier) : Prop :=
  value_le (tierMaxFeePerGas a) (tierMaxFeePerGas b) /\
  value_le (tierMaxPriorityFeePerGas a) (tierMaxPriorityFeePerGas b).

End BaseGasOptimizer.

(** ** BaseDeFiUtils (base-builder-utilities.js) *)

Module BaseDeFiUtils.

Record GasFees : Type := mkGasFees {
  standard : Z;
  fast : Z;
  instant : Z;
  network : string
}.

(** [getOptimalGasFees()], given the BigInt [client.getGasPrice()] resolved
    to and [this.config.name]. *)
Definition getOptimalGasFees (configName : string) (gasPrice : Z) : GasFees :=
  {| standard := gasPrice;
     fast := Z.quot (gasPrice * 110) 100;
     instant := Z.quot (gasPrice * 125) 100;
     network := configName |}.

End BaseDeFiUtils.

(** ** The environment of the builder utilities *)

(** Binary64 numbers are the rationals a double can hold; [fl x] is the double
    nearest to the real number [x].  The functions below take [fl] as their
    first argument. *)
Module Number.

(** [a * b] on Numbers. *)
Definition mul (fl : Q -> Q) (a b : Q) : Q := fl (a * b)%Q.

(** A decimal literal of the program text, such as [0.01]. *)
Definition literal (fl : Q -> Q) (decimal : Q) : Q := fl decimal.

(** [parseFloat(s)] for a decimal string [s], given by the rational it spells. *)
Definition parseFloat (fl : Q -> Q) (s : Q) : Q := fl s.

(** [Math.floor(x)]. *)
Definition floor (x : Q) : Z := Qfloor x.

(** The largest double below 1: [Math.random()] returns a double [r] with
    [0 <= r < 1]. *)
Definition max_random : Q := (1 - (1 # 9007199254740992))%Q.

Definition is_random (r : Q) : Prop := (0 <= r)%Q /\ (r <= max_random)%Q.

(** What the properties below use of round-to-nearest binary64:
    - rounding is monotone;
    - 0 is a double;
    - the largest product [Math.random() * 10], 10 - 10 * 2^-53, rounds
      to the double 10 - 2^-49 just below 10 (the doubles next to it are
      10 - 16 * 2^-53 and 10);
    - 0.009999999999999999 rounds below the double of 0.01 (the doubles
      next to 0.01 are 0.01 - 1.53e-18 and 0.01 + 2.1e-19). *)
Record rounding (fl : Q -> Q) : Prop := mkRounding {
  fl_mono : forall x y : Q, (x <= y)%Q -> (fl x <= fl y)%Q;
  fl_zero : (fl 0 == 0)%Q;
  fl_random_times_10 : (fl (max_random * 10) < 10)%Q;
  fl_below_cent : (fl (9999999999999999 # 1000000000000000000) < fl (1 # 100))%Q
}.

(** The rounding that changes nothing.  It is round-to-nearest on the numbers
    a double holds exactly, and serves to evaluate the functions on sample
    inputs. *)
Definition exact (x : Q) : Q := x.

End Number.

(** The process state read by [Math.random()] and [new Date()]. *)
Record World : Type := mkWorld {
  rng : nat -> Q;   (* the generator's outputs, in order *)
  drawn : nat;      (* how many have been consumed *)
  clock : string    (* what [new Date().toISOString()] yields *)
}.

Definition Math_random (w : World) : Q * World :=
  (rng w (drawn w), {| rng := rng w; drawn := S (drawn w); clock := clock w |}).

(** The chain state behind viem's public client. *)
Record Chain : Type := mkChain {
  getBalance : string -> Z;            (* wei, a BigInt *)
  getTransactionCount : string -> Z    (* a Number holding an integer *)
}.

(** viem's [formatEther(wei)]: the decimal string of [wei / 10^18], given
    by the rational it spells. *)
Definition formatEther (wei : Z) : Q := (wei # 1000000000000000000)%Q.

(** ** BaseBuilderTracker (base-builder-utilities.js) *)

Module BaseBuilderTracker.

Record BuilderMetrics : Type := mkBuilderMetrics {
  address : string;
  balance : Q;              (* the string [formatEther(balance)] *)
  transactionCount : Z;
  contractsDeployed : Z;
  network : string;
  timestamp : string
}.

Section Tracker.
Variable fl : Q -> Q.
Variable configName : string.   (* [this.config.name] *)
Variable client : Chain.        (* [this.client] *)

(** [getContractsDeployed(address)]:
    [Math.floor(Math.random() * 10) + 1]. *)
Definition getContractsDeployed (addr : string) (w : World) : Z * World :=
  let (r, w') := Math_random w in
  (Number.floor (Number.mul fl r 10) + 1, w').

(** [getBuilderMetrics(address)], the RPC calls having resolved. *)
Definition getBuilderMetrics (addr : string) (w : World) : BuilderMetrics * World :=
  let balance := getBalance client addr in
  let txCount := getTransactionCount client addr in
  let (contractsDeployed, w') := getContractsDeployed addr w in
  ({| address := addr;
      balance := formatEther balance;
      transactionCount := txCount;
      contractsDeployed := contractsDeployed;
      network := configName;
      timestamp := clock w' |}, w').

End Tracker.

End BaseBuilderTracker.

(** ** BaseAnalytics (base-builder-utilities.js) *)

Module BaseAnalytics.
Import BaseBuilderTracker.

Record Eligibility : Type := mkEligibility {
  hasMinimumActivity : bool;
  hasDeployedContracts : bool;
  hasMinimumBalance : bool;
  overallEligible : bool
}.

Record EligibilityReport : Type := mkEligibilityReport {
  reportAddress : string;
  eligibility : Eligibility;
  metrics : BuilderMetrics;
  recommendations : list string
}.

(** [getRecommendations(eligibility)]. *)
Definition getRecommendations (e : Eligibility) : list string :=
  let recommendations := [] in
  let recommendations :=
    if negb (hasMinimumActivity e)
    then recommendations ++ ["Increase transaction activity on Base network"%string]
    else recommendations in
  let recommendations :=
    if negb (hasDeployedContracts e)
    then recommendations ++ ["Deploy smart contracts to demonstrate building activity"%string]
    else recommendations in
  let recommendations :=
    if negb (hasMinimumBalance e)
    then recommendations ++ ["Maintain minimum ETH balance for gas fees"%string]
    else recommendations in
  let recommendations :=
    if overallEligible e
    then recommendations ++ ["Continue consistent building activity for maximum rewards"%string]
    else recommendations in
  recommendations.

Section Analytics.
Variable fl : Q -> Q.
Variable mainnet : Chain.   (* the chain behind [this.mainnetTracker.client] *)

(** The object literal bound to [eligibility], before [overallEligible] is
    assigned. *)
Definition initialEligibility (m : BuilderMetrics) : Eligibility :=
  {| hasMinimumActivity := 10 <=? transactionCount m;
     hasDeployedContracts := 0 <? contractsDeployed m;
     hasMinimumBalance :=
       Qle_bool (Number.literal fl (1 # 100)) (Number.parseFloat fl (balance m));
     overallEligible := false |}.

(** The assignment to [eligibility.overallEligible]. *)
Definition setOverallEligible (e : Eligibility) : Eligibility :=
  {| hasMinimumActivity := hasMinimumActivity e;
     hasDeployedContracts := hasDeployedContracts e;
     hasMinimumBalance := hasMinimumBalance e;
     overallEligible :=
       hasMinimumActivity e && hasDeployedContracts e && hasMinimumBalance e |}.

(** [checkRewardsEligibility(address)]. *)
Definition checkRewardsEligibility (addr : string) (w : World) : EligibilityReport * World :=
  let (m, w') := getBuilderMetrics fl "Base" mainnet addr w in
  let e := setOverallEligible (initialEligibility m) in
  ({| reportAddress := addr;
      eligibility := e;
      metrics := m;
      recommendations := getRecommendations e |}, w').

End Analytics.

End BaseAnalytics.

(** ** BaseIntegration (BaseIntegration.js) *)

Module BaseIntegration.

Record Wallet : Type := mkWallet {
  walletAddress : string
}.

(** An entry of [this.contracts]; the ethers contract object and the ABI are
    not inspected by the score. *)
Record ContractEntry : Type := mkContractEntry {
  entryAddress : string
}.

(** The fields of an instance that the score reads. *)
Record Instance : Type := mkInstance {
  wallet : option Wallet;                 (* [null] until [initializeWallet] *)
  contracts : gmap string ContractEntry   (* a [Map] keyed by contract name *)
}.

(** The state the constructor leaves. *)
Definition new : Instance := {| wallet := None; contracts := ∅ |}.

(** The effect of [initializeWallet] on the instance. *)
Definition setWallet (wl : Wallet) (this : Instance) : Instance :=
  {| wallet := Some wl; contracts := contracts this |}.

(** The effect of [deployContract] on the instance:
    [this.contracts.set(contractData.name, ...)]. *)
Definition setContract (name : string) (e : ContractEntry) (this : Instance) : Instance :=
  {| wallet := wallet this; contracts := <[name := e]> (contracts this) |}.

(** [calculateActivityScore()].  The sizes of a [Map] are far below 2^53, so
    the Number arithmetic is exact integer arithmetic. *)
Definition calculateActivityScore (this : Instance) : Z :=
  let score := 0 in
  let score := score + Z.of_nat (size (contracts this)) * 50 in
  let score := if wallet this is Some _ then score + 10 else score in
  let score := score + 20 in
  Z.min score 1000.

(** The score as the specification words it, over the two inputs it names. *)
Definition activityScore_spec (deployedContractCount : Z) (walletInitialized : bool) : Z :=
  Z.min 1000 (deployedContractCount * 50 + (if walletInitialized then 10 else 0) + 20).

Definition deployedContractCount (this : Instance) : Z :=
  Z.of_nat (size (contracts this)).

Definition walletInitialized (this : Instance) : bool :=
  if wallet this is Some _ then true else false.

End BaseIntegration.

(** ** Sample environments *)

(** A generator whose first output is [r0] and whose later outputs are [r1]. *)
Definition sampleWorld (r0 r1 : Q) : World :=
  {| rng := fun n => match n with O => r0 | S _ => r1 end;
     drawn := 0;
     clock := "2024-01-01T00:00:00.000Z" |}.

(** A chain on which every account holds [wei] and has sent [txs]
    transactions. *)
Definition sampleChain (wei txs : Z) : Chain :=
  {| getBalance := fun _ => wei; getTransactionCount := fun _ => txs |}.

(** An instance after [initializeWallet] and a [deployContract] per name. *)
Definition sampleInstance (names : list string) : BaseIntegration.Instance :=
  foldr (fun name this =>
           BaseIntegration.setContract name (BaseIntegration.mkContractEntry "0x00") this)
        (BaseIntegration.setWallet (BaseIntegration.mkWallet "0x01") BaseIntegration.new)
        names.

Definition twentyNames : list string :=
  ["c01"; "c02"; "c03"; "c04"; "c05"; "c06"; "c07"; "c08"; "c09"; "c10";
   "c11"; "c12"; "c13"; "c14"; "c15"; "c16"; "c17"; "c18"; "c19"; "c20"]%string.

(** ** Objects and thrown errors *)

Module Obj.

(** A property value of a plain object: a string, a Number holding an
    integer, or a BigInt. *)
Inductive field : Type :=
| FString (s : string)
| FNumber (n : Z)
| FBigInt (n : Z).

(** Truthiness, as [||] and [!] test it: the empty string, [0] and [0n] are
    falsy. *)
Definition truthy (v : field) : bool :=
  match v with
  | FString s => negb (String.eqb s "")
  | FNumber n => negb (n =? 0)
  | FBigInt n => negb (n =? 0)
  end.

(** [v || d] for a property [v] that may be [undefined]. *)
Definition orDefault (v : option field) (d : field) : field :=
  match v with
  | Some x => if truthy x then x else d
  | None => d
  end.

(** The outcome of a call that may throw (or reject with) an [Error]
    carrying a message. *)
Inductive outcome (A : Type) : Type :=
| Returned (a : A)
| Failed (message : string).

Arguments Returned {A} a.
Arguments Failed {A} message.

End Obj.

(** ** BaseGasOptimizer.batchTransactions (Base blockchain integration module) *)

Module Batch.
Import Obj.

(** The gas limit given to a transaction: [gasEstimate * BigInt(120) / BigInt(100)]. *)
Definition buffered (gasEstimate : Z) : Z := Z.quot (gasEstimate * 120) 100.

(** [{...tx, gasLimit: ...}]. *)
Definition withGasLimit (tx : gmap string field) (gasEstimate : Z) : gmap string field :=
  <["gasLimit" := FBigInt (buffered gasEstimate)]> tx.

(** What the loop pushes for [tx]: [out] is [tx] with the gas limit from its
    estimate, the estimate having resolved. *)
Definition pushed (estimateGas : gmap string field -> outcome Z)
  (tx out : gmap string field) : Prop :=
  exists gasEstimate,
    estimateGas tx = Returned gasEstimate /\ out = withGasLimit tx gasEstimate.

(** The [for ... of] loop over [transactions], [batchedTxs] being the array
    built so far; [estimateGas tx] is what [provider.estimateGas(tx)] settles
    to.  A rejection leaves the loop and rejects the call. *)
Fixpoint batchLoop (estimateGas : gmap string field -> outcome Z)
  (transactions batchedTxs : list (gmap string field)) : outcome (list (gmap string field)) :=
  match transactions with
  | [] => Returned batchedTxs
  | tx :: rest =>
      match estimateGas tx with
      | Returned gasEstimate =>
          batchLoop estimateGas rest (batchedTxs ++ [withGasLimit tx gasEstimate])
      | Failed message => Failed message
      end
  end.

(** [batchTransactions(transactions)]. *)
Definition batchTransactions (estimateGas : gmap string field -> outcome Z)
  (transactions : list (gmap string field)) : outcome (list (gmap string field)) :=
  batchLoop estimateGas transactions [].

End Batch.

(** ** BaseIntegration.js: construction, wallet, deployment, calls, sending *)

Module Client.
Import Obj BaseIntegration.

Record GasSettings : Type := mkGasSettings {
  gasLimit : field;
  maxFeePerGas : field;
  maxPriorityFeePerGas : field
}.

(** The fields of an instance the methods below read or write. *)
Record State : Type := mkState {
  rpcUrl : field;
  chainId : field;
  instance : Instance;        (* [wallet] and [contracts] *)
  gasSettings : GasSettings
}.

(** [constructor(config = {})]; [ethers.parseUnits('20', 'gwei')] is
    20000000000n and [ethers.parseUnits('1', 'gwei')] is 1000000000n. *)
Definition constructor (config : gmap string field) : State :=
  {| rpcUrl := orDefault (config !! "rpcUrl") (FString "https://mainnet.base.org");
     chainId := orDefault (config !! "chainId") (FNumber 8453);
     instance := new;
     gasSettings :=
       {| gasLimit := orDefault (config !! "gasLimit") (FNumber 500000);
          maxFeePerGas := orDefault (config !! "maxFeePerGas") (FBigInt 20000000000);
          maxPriorityFeePerGas :=
            orDefault (config !! "maxPriorityFeePerGas") (FBigInt 1000000000) |} |}.

Definition withInstance (i : Instance) (this : State) : State :=
  {| rpcUrl := rpcUrl this; chainId := chainId this;
     instance := i; gasSettings := gasSettings this |}.

(** [initializeWallet(privateKey)].  [newWallet] is what
    [new ethers.Wallet(privateKey, provider)] gives and [balance] what the
    balance query settles to.  The wallet is assigned before the balance is
    awaited. *)
Definition initializeWallet (newWallet : outcome Wallet) (balance : outcome Z)
  (this : State) : outcome string * State :=
  match newWallet with
  | Failed message => (Failed ("Failed to initialize wallet: " ++ message), this)
  | Returned wl =>
      let this' := withInstance (setWallet wl (instance this)) this in
      match balance with
      | Failed message => (Failed ("Failed to initialize wallet: " ++ message), this')
      | Returned _ => (Returned (walletAddress wl), this')
      end
  end.

(** [deployContract(contractData, constructorArgs)].  [name] is
    [contractData.name] and [deployed] what the factory's deployment settles
    to: the contract's address, or an error. *)
Definition deployContract (name : string) (deployed : outcome string)
  (this : State) : outcome string * State :=
  match wallet (instance this) with
  | None => (Failed "Wallet not initialized", this)
  | Some _ =>
      match deployed with
      | Failed message => (Failed ("Contract deployment failed: " ++ message), this)
      | Returned address =>
          (Returned address,
           withInstance (setContract name (mkContractEntry address) (instance this)) this)
      end
  end.

(** [callContract(contractName, methodName, args)].  [invoke entry] is what
    calling the method on the stored contract settles to. *)
Definition callContract {R : Type} (contractName : string)
  (invoke : ContractEntry -> outcome R) (this : State) : outcome R :=
  match contracts (instance this) !! contractName with
  | None => Failed ("Contract " ++ contractName ++ " not found")
  | Some contractData =>
      match invoke contractData with
      | Returned result => Returned result
      | Failed message => Failed ("Contract call failed: " ++ message)
      end
  end.

(** [{...transaction, ...this.gasSettings}]. *)
Definition withGasSettings (transaction : gmap string field) (g : GasSettings)
  : gmap string field :=
  <["maxPriorityFeePerGas" := maxPriorityFeePerGas g]>
    (<["maxFeePerGas" := maxFeePerGas g]>
       (<["gasLimit" := gasLimit g]> transaction)).

(** [sendTransaction(transaction)].  [send tx] is what
    [wallet.sendTransaction(tx)] followed by [tx.wait()] settles to. *)
Definition sendTransaction {R : Type} (send : gmap string field -> outcome R)
  (transaction : gmap string field) (this : State) : outcome R :=
  match wallet (instance this) with
  | None => Failed "Wallet not initialized"
  | Some _ =>
      match send (withGasSettings transaction (gasSettings this)) with
      | Returned receipt => Returned receipt
      | Failed message => Failed ("Transaction failed: " ++ message)
      end
  end.

(** [getOptimizationRecommendations()]. *)
Definition getOptimizationRecommendations (this : State) : list string :=
  let recommendations := [] in
  let recommendations :=
    if (size (contracts (instance this)) =? 0)%nat
    then recommendations ++ ["Deploy smart contracts to increase activity score"%string]
    else recommendations in
  let recommendations :=
    if wallet (instance this) is Some _
    then recommendations
    else recommendations ++ ["Initialize wallet for transaction capabilities"%string] in
  let recommendations :=
    recommendations ++ ["Integrate with DeFi protocols for higher rewards"%string] in
  let recommendations :=
    recommendations ++ ["Implement automated testing for contract reliability"%string] in
  recommendations.

(** A run of deployments, each with the name it stores under and what its
    deployment settles to. *)
Definition deployAll (deployments : list (string * outcome string)) (this : State) : State :=
  foldl (fun st d => snd (deployContract (fst d) (snd d) st)) this deployments.

End Client.

(** ** BaseDeFiUtils.estimateBridgeCost (base-builder-utilities.js) *)

Module BridgeCost.

Record Estimate : Type := mkEstimate {
  amount : Q;         (* the strings [formatEther(...)], by the decimals they spell *)
  bridgeFee : Q;
  estimatedGas : Q;
  totalCost : Q;
  token : string
}.

(** viem's [parseEther('0.001')]. *)
Definition parseEther_0_001 : Z := 1000000000000000.

(** [estimateBridgeCost(amount, token = 'ETH')] for a BigInt [amount], given
    the gas price [getOptimalGasFees] awaited. *)
Definition estimateBridgeCost (configName : string) (gasPrice : Z)
  (amountWei : Z) (tokenArg : option string) : Estimate :=
  let bridgeFeeWei := parseEther_0_001 in
  let gasCost := BaseDeFiUtils.getOptimalGasFees configName gasPrice in
  {| amount := formatEther amountWei;
     bridgeFee := formatEther bridgeFeeWei;
     estimatedGas := formatEther (BaseDeFiUtils.standard gasCost * 21000);
     totalCost :=
       formatEther (amountWei + bridgeFeeWei + BaseDeFiUtils.standard gasCost * 21000);
     token := default "ETH"%string tokenArg |}.

End BridgeCost.

(** ** utils (base-builder-utilities.js) *)

Module Utils.
Import JS.

Record NetworkConfig : Type := mkNetworkConfig {
  chainId : Z;
  name : string;
  rpcUrl : string;
  explorerUrl : string;
  bridgeUrl : string;
  multicallAddress : string
}.

(** The own properties of [BASE_CONFIG]. *)
Definition BASE_CONFIG : gmap string NetworkConfig :=
  <["mainnet" :=
      {| chainId := 8453;
         name := "Base";
         rpcUrl := "https://mainnet.base.org";
         explorerUrl := "https://basescan.org";
         bridgeUrl := "https://bridge.base.org";
         multicallAddress := "0xcA11bde05977b3631167028862bE2a173976CA11" |}]>
  (<["testnet" :=
      {| chainId := 84531;
         name := "Base Goerli";
         rpcUrl := "https://goerli.base.org";
         explorerUrl := "https://goerli.basescan.org";
         bridgeUrl := "https://bridge.base.org";
         multicallAddress := "0xcA11bde05977b3631167028862bE2a173976CA11" |}]> ∅).

(** What [BASE_CONFIG[network]] evaluates to: an own entry, a member
    inherited from [Object.prototype] (such as [constructor]), which has no
    [explorerUrl], or [undefined]. *)
Inductive member : Type :=
| Own (c : NetworkConfig)
| Inherited
| Undefined.

Section Explorer.
Variable inherited : string -> bool.   (* the property names of [Object.prototype] *)

Definition getMember (network : string) : member :=
  match BASE_CONFIG !! network with
  | Some c => Own c
  | None => if inherited network then Inherited else Undefined
  end.

(** [`${BASE_CONFIG[network].explorerUrl}`]: reading a property of
    [undefined] throws; an [undefined] property prints as "undefined". *)
Definition explorerOf (network : string) : completion string :=
  match getMember network with
  | Own c => Normal (explorerUrl c)
  | Inherited => Normal "undefined"%string
  | Undefined => Throw TypeError
  end.

(** [getTxUrl(txHash, network = 'mainnet')]. *)
Definition getTxUrl (txHash : string) (network : option string) : completion string :=
  let! explorer := explorerOf (default "mainnet"%string network) in
  Normal (explorer ++ "/tx/" ++ txHash)%string.

(** [getAddressUrl(address, network = 'mainnet')]. *)
Definition getAddressUrl (address : string) (network : option string) : completion string :=
  let! explorer := explorerOf (default "mainnet"%string network) in
  Normal (explorer ++ "/address/" ++ address)%string.

End Explorer.

(** The character class [[a-fA-F0-9]]. *)
Definition isHexDigit (c : ascii) : bool :=
  let n := nat_of_ascii c in
  ((97 <=? n) && (n <=? 102) || (65 <=? n) && (n <=? 70) || (48 <=? n) && (n <=? 57))%nat.

(** [[a-fA-F0-9]{n}$]: exactly [n] hex digits, then the end of the input. *)
Fixpoint hexDigitsToEnd (n : nat) (s : string) : bool :=
  match n, s with
  | O, EmptyString => true
  | S n', String c s' => isHexDigit c && hexDigitsToEnd n' s'
  | _, _ => false
  end.

(** [isValidAddress(address)]: [/^0x[a-fA-F0-9]{40}$/.test(address)]. *)
Definition isValidAddress (address : string) : bool :=
  match address with
  | String "0" (String "x" rest) => hexDigitsToEnd 40 rest
  | _ => false
  end.

End Utils.

(** ** BaseIntegration.getBalance and sendETH (Base blockchain integration module) *)

Module Integration.
Import Obj BaseIntegration.

(** [address || this.provider.wallet?.address]: the empty string is falsy,
    and a provider built without a private key has no [wallet]. *)
Definition accountOf (address : option string) (wallet : option Wallet) : option string :=
  match address with
  | Some a => if String.eqb a "" then walletAddress <$> wallet else Some a
  | None => walletAddress <$> wallet
  end.

(** [getBalance(address = null)], the balance query having resolved. *)
Definition getBalance (chain : Chain) (wallet : option Wallet) (address : option string)
  : outcome Q :=
  match accountOf address wallet with
  | Some account =>
      if String.eqb account "" then Failed "No address provided"
      else Returned (formatEther (getBalance chain account))
  | None => Failed "No address provided"
  end.

(** [{to, value: ..., ...gasOptions}]. *)
Definition ethTransaction (to : string) (value : Z) (gasOptions : gmap string field)
  : gmap string field :=
  gasOptions ∪ <["value" := FBigInt value]> {["to" := FString to]}.

(** [sendETH(to, amount, gasOptions = {})].  [value] is what
    [ethers.parseEther(amount.toString())] gives and [send tx] what
    [wallet.sendTransaction(tx)] followed by [wait()] settles to. *)
Definition sendETH {R : Type} (send : gmap string field -> outcome R)
  (wallet : option Wallet) (to : string) (value : outcome Z)
  (gasOptions : gmap string field) : outcome R :=
  match wallet with
  | None => Failed "Wallet not initialized"
  | Some _ =>
      match value with
      | Failed message => Failed message
      | Returned v => send (ethTransaction to v gasOptions)
      end
  end.

End Integration.

(** * Properties *)

(** Refutes membership in a list of literals that differ from the element. *)
Ltac not_listed H :=
  repeat (destruct H as [H|H]; [discriminate H|]); destruct H.

(** ** BigInt percentages *)

Section Percentages.
Import JS BaseGasOptimizer.

Lemma percent_BigInt (x pct : Z) :
  percent (BigInt x) pct = Normal (BigInt (Z.quot (x * pct) 100)).
Proof. reflexivity. Qed.

Lemma percent_Null (pct : Z) : percent Null pct = Throw TypeError.
Proof. reflexivity. Qed.

(** On non-negative operands the truncating quotient is the floor. *)
Lemma quot_percent_floor (x pct : Z) :
  0 <= x -> 0 <= pct -> Z.quot (x * pct) 100 = (x * pct) / 100.
Proof.
  intros Hx Hp. apply Z.quot_div_nonneg; [apply Z.mul_nonneg_nonneg; assumption | lia].
Qed.

Lemma quot_percent_le (x pct : Z) :
  0 <= x -> 0 <= pct <= 100 -> Z.quot (x * pct) 100 <= x.
Proof.
  intros Hx Hp. rewrite quot_percent_floor by lia.
  apply Z.div_le_upper_bound; [lia | nia].
Qed.

Lemma quot_percent_ge (x pct : Z) :
  0 <= x -> 100 <= pct -> x <= Z.quot (x * pct) 100.
Proof.
  intros Hx Hp. rewrite quot_percent_floor by lia.
  apply Z.div_le_lower_bound; [lia | nia].
Qed.

Lemma quot_percent_mono (x p q : Z) :
  0 <= x -> 0 <= p <= q -> Z.quot (x * p) 100 <= Z.quot (x * q) 100.
Proof.
  intros Hx Hp. rewrite !quot_percent_floor by lia.
  apply Z.div_le_mono; [lia | nia].
Qed.

(** The floor of [x * (pct / 100)], computed in the rationals. *)
Lemma Qfloor_percent (x pct : Z) :
  Qfloor (inject_Z x * (pct # 100)) = (x * pct) / 100.
Proof. reflexivity. Qed.

(** With both fees present, [getOptimalGas] returns, whatever their sign. *)
Lemma getOptimalGas_BigInt (fd : FeeData) (blk : Block) (b p : Z) :
  maxFeePerGas fd = BigInt b ->
  maxPriorityFeePerGas fd = BigInt p ->
  getOptimalGas fd (Some blk) =
  Normal {|
    og_gasPrice := gasPrice fd;
    og_maxFeePerGas := BigInt b;
    og_maxPriorityFeePerGas := BigInt p;
    og_baseFeePerGas := baseFeePerGas blk;
    recommended := {|
      slow := {| tierMaxFeePerGas := BigInt (Z.quot (b * 90) 100);
                 tierMaxPriorityFeePerGas := BigInt (Z.quot (p * 90) 100) |};
      standard := {| tierMaxFeePerGas := BigInt b;
                     tierMaxPriorityFeePerGas := BigInt p |};
      fast := {| tierMaxFeePerGas := BigInt (Z.quot (b * 110) 100);
                 tierMaxPriorityFeePerGas := BigInt (Z.quot (p * 110) 100) |}
    |}
  |}.
Proof.
  intros Hb Hp. unfold getOptimalGas. rewrite Hb, Hp. reflexivity.
Qed.

(** With the block or a fee absent, the first expression over it throws. *)
Lemma getOptimalGas_Null (fd : FeeData) (block : option Block) :
  block = None \/ maxFeePerGas fd = Null \/ maxPriorityFeePerGas fd = Null ->
  getOptimalGas fd block = Throw TypeError.
Proof.
  unfold getOptimalGas.
  destruct block as [blk|], (maxFeePerGas fd) as [|b], (maxPriorityFeePerGas fd) as [|p];
    intros [H|[H|H]]; try discriminate H; reflexivity.
Qed.

End Percentages.

(** ** Fee tiers *)

Section FeeTiers.
Import JS BaseGasOptimizer.

(** C1 fails as worded.  A fee observation with a non-negative base fee and
    no priority fee gets no schedule: [getOptimalGas] throws a TypeError on
    the absent fee instead of taking it as 0.  And for a negative priority
    fee the schedule it returns has the priority caps in the reverse order,
    slow -9 above standard -10 above fast -11, truncation being toward
    zero. *)
Lemma fee_tiers_not_ordered_for_every_observation :
  getOptimalGas (mkFeeData Null (BigInt 1000000000) Null) (Some (mkBlock Null))
  = Throw TypeError /\
  throws (getOptimalGas (mkFeeData Null (BigInt 1000000000) Null) (Some (mkBlock Null)))
  = true /\
  (exists g,
     getOptimalGas (mkFeeData Null (BigInt 10) (BigInt (-10))) (Some (mkBlock Null))
     = Normal g /\
     tierMaxPriorityFeePerGas (slow (recommended g)) = BigInt (-9) /\
     tierMaxPriorityFeePerGas (standard (recommended g)) = BigInt (-10) /\
     tierMaxPriorityFeePerGas (fast (recommended g)) = BigInt (-11) /\
     ~ tier_le (slow (recommended g)) (standard (recommended g)) /\
     ~ tier_le (standard (recommended g)) (fast (recommended g))).
Proof.
  split; [reflexivity|]. split; [reflexivity|].
  eexists. split; [reflexivity|]. split; [reflexivity|].
  split; [reflexivity|]. split; [reflexivity|].
  split; intros [_ Hpriority]; vm_compute in Hpriority; exact (Hpriority eq_refl).
Qed.

(** C1, amended.  For fee data whose [maxFeePerGas] and
    [maxPriorityFeePerGas] are both present and non-negative BigInts, and a
    block that is present, [getOptimalGas] returns a schedule with
    slow <= standard <= fast, for the fee caps and for the priority caps
    alike, its fast factor being the constant 110 / 100;
    [getOptimalGasFees] orders its tiers standard <= fast <= instant; and
    the percentage expression [x * BigInt(pct) / BigInt(100)] the tiers are
    built from lies at or above [x] for every multiplier [pct / 100 > 1]
    (and at or below it for the slow factor 90 / 100). *)
Theorem fee_tiers_monotone (fd : FeeData) (blk : Block) (b p : Z) :
  maxFeePerGas fd = BigInt b ->
  maxPriorityFeePerGas fd = BigInt p ->
  0 <= b -> 0 <= p ->
  (exists g, getOptimalGas fd (Some blk) = Normal g /\
     tier_le (slow (recommended g)) (standard (recommended g)) /\
     tier_le (standard (recommended g)) (fast (recommended g))) /\
  (forall name,
     BaseDeFiUtils.standard (BaseDeFiUtils.getOptimalGasFees name b)
       <= BaseDeFiUtils.fast (BaseDeFiUtils.getOptimalGasFees name b)
       <= BaseDeFiUtils.instant (BaseDeFiUtils.getOptimalGasFees name b)) /\
  (forall pct, 100 < pct ->
     exists lo hi,
       percent (BigInt b) 90 = Normal (BigInt lo) /\
       percent (BigInt b) pct = Normal (BigInt hi) /\
       lo <= b <= hi).
Proof.
  intros Hfee Hprio Hb Hp. split; [|split].
  - eexists. split; [apply (getOptimalGas_BigInt fd blk b p Hfee Hprio)|].
    unfold tier_le; simpl.
    repeat split;
      first [apply quot_percent_le; lia | apply quot_percent_ge; lia].
  - intros name. simpl. split.
    + apply quot_percent_ge; lia.
    + apply quot_percent_mono; lia.
  - intros pct Hpct. do 2 eexists.
    split; [apply percent_BigInt|]. split; [apply percent_BigInt|].
    split; [apply quot_percent_le | apply quot_percent_ge]; lia.
Qed.

Lemma fee_tiers_monotone_witness :
  exists g,
    getOptimalGas (mkFeeData (BigInt 7) (BigInt 7) (BigInt 3)) (Some (mkBlock (BigInt 5))) = Normal g /\
    tier_le (slow (recommended g)) (standard (recommended g)) /\
    tier_le (standard (recommended g)) (fast (recommended g)).
Proof.
  apply (fee_tiers_monotone
           (mkFeeData (BigInt 7) (BigInt 7) (BigInt 3)) (mkBlock (BigInt 5)) 7 3);
    [reflexivity | reflexivity | lia | lia].
Defined.

(** A fee of zero gives zero in every tier. *)
Example zero_fee_tiers :
  exists g,
    getOptimalGas (mkFeeData Null (BigInt 0) (BigInt 0)) (Some (mkBlock Null)) = Normal g /\
    recommended g
    = {| slow := mkTier (BigInt 0) (BigInt 0);
         standard := mkTier (BigInt 0) (BigInt 0);
         fast := mkTier (BigInt 0) (BigInt 0) |}.
Proof. eexists. split; reflexivity. Qed.

(** Truncation shows on small fees: 90% of 7 is 6, 110% of 7 is 7. *)
Example small_fee_tiers :
  exists g,
    getOptimalGas (mkFeeData Null (BigInt 7) (BigInt 1)) (Some (mkBlock Null)) = Normal g /\
    recommended g
    = {| slow := mkTier (BigInt 6) (BigInt 0);
         standard := mkTier (BigInt 7) (BigInt 1);
         fast := mkTier (BigInt 7) (BigInt 1) |}.
Proof. eexists. split; reflexivity. Qed.

(** Without the sign condition the order reverses: truncation toward zero
    moves a negative fee up. *)
Example negative_priority_reverses_tiers :
  exists g,
    getOptimalGas (mkFeeData Null (BigInt 10) (BigInt (-10))) (Some (mkBlock Null)) = Normal g /\
    tierMaxPriorityFeePerGas (slow (recommended g)) = BigInt (-9) /\
    tierMaxPriorityFeePerGas (standard (recommended g)) = BigInt (-10) /\
    tierMaxPriorityFeePerGas (fast (recommended g)) = BigInt (-11).
Proof. eexists. repeat split. Qed.

(** C7 fails as worded.  For a fee of 1_000_000_000 the fast tier is
    1_100_000_000, not 1_250_000_000, in [getOptimalGas] (with the priority
    fee at the default 0) and in [getOptimalGasFees]; and with the priority
    fee absent [getOptimalGas] returns no schedule at all. *)
Lemma fast_tier_of_1e9_is_not_1250000000 :
  (exists g,
     getOptimalGas (mkFeeData Null (BigInt 1000000000) (BigInt 0)) (Some (mkBlock Null)) = Normal g /\
     tierMaxFeePerGas (fast (recommended g)) = BigInt 1100000000 /\
     tierMaxFeePerGas (fast (recommended g)) <> BigInt 1250000000) /\
  BaseDeFiUtils.fast (BaseDeFiUtils.getOptimalGasFees "Base" 1000000000) = 1100000000 /\
  BaseDeFiUtils.fast (BaseDeFiUtils.getOptimalGasFees "Base" 1000000000) <> 1250000000 /\
  getOptimalGas (mkFeeData Null (BigInt 1000000000) Null) (Some (mkBlock Null)) = Throw TypeError.
Proof.
  split; [|split; [|split]].
  - eexists. split; [reflexivity|]. split; [reflexivity | discriminate].
  - reflexivity.
  - discriminate.
  - reflexivity.
Qed.

(** C7, amended.  For a fee of 1_000_000_000 and any BigInt priority fee,
    [getOptimalGas] recommends fee caps slow = 900_000_000,
    standard = 1_000_000_000 and fast = 1_100_000_000; [getOptimalGasFees]
    on a gas price of 1_000_000_000 returns standard = 1_000_000_000,
    fast = 1_100_000_000 and a separate instant tier of 1_250_000_000. *)
Theorem fee_tiers_of_1e9 (gp bf : value) (p : Z) (name : string) :
  (exists g,
     getOptimalGas (mkFeeData gp (BigInt 1000000000) (BigInt p)) (Some (mkBlock bf)) = Normal g /\
     tierMaxFeePerGas (slow (recommended g)) = BigInt 900000000 /\
     tierMaxFeePerGas (standard (recommended g)) = BigInt 1000000000 /\
     tierMaxFeePerGas (fast (recommended g)) = BigInt 1100000000) /\
  BaseDeFiUtils.standard (BaseDeFiUtils.getOptimalGasFees name 1000000000) = 1000000000 /\
  BaseDeFiUtils.fast (BaseDeFiUtils.getOptimalGasFees name 1000000000) = 1100000000 /\
  BaseDeFiUtils.instant (BaseDeFiUtils.getOptimalGasFees name 1000000000) = 1250000000.
Proof.
  split; [|repeat split].
  eexists. split; [apply getOptimalGas_BigInt; reflexivity|].
  repeat split.
Qed.

(** C8.  For non-negative BigInt fees every tier is computed in exact integer
    arithmetic and is the floor of the fee times the tier's ratio: slow is
    floor(fee * 0.90) and fast is floor(fee * 1.10) in [getOptimalGas], for
    the fee cap and the priority cap; fast is floor(price * 1.10) and
    instant is floor(price * 1.25) in [getOptimalGasFees]; and for every
    multiplier [pct / 100] the percentage expression is floor(fee * pct / 100),
    which is never above the exact product. *)
Theorem fee_tiers_are_floors (fd : FeeData) (blk : Block) (b p : Z) :
  maxFeePerGas fd = BigInt b ->
  maxPriorityFeePerGas fd = BigInt p ->
  0 <= b -> 0 <= p ->
  (exists g, getOptimalGas fd (Some blk) = Normal g /\
     tierMaxFeePerGas (slow (recommended g)) = BigInt (Qfloor (inject_Z b * (9 # 10))) /\
     tierMaxFeePerGas (standard (recommended g)) = BigInt b /\
     tierMaxFeePerGas (fast (recommended g)) = BigInt (Qfloor (inject_Z b * (11 # 10))) /\
     tierMaxPriorityFeePerGas (slow (recommended g)) = BigInt (Qfloor (inject_Z p * (9 # 10))) /\
     tierMaxPriorityFeePerGas (standard (recommended g)) = BigInt p /\
     tierMaxPriorityFeePerGas (fast (recommended g)) = BigInt (Qfloor (inject_Z p * (11 # 10)))) /\
  (forall name,
     BaseDeFiUtils.fast (BaseDeFiUtils.getOptimalGasFees name b)
       = Qfloor (inject_Z b * (11 # 10)) /\
     BaseDeFiUtils.instant (BaseDeFiUtils.getOptimalGasFees name b)
       = Qfloor (inject_Z b * (5 # 4))) /\
  (forall pct, 0 <= pct ->
     exists y,
       percent (BigInt b) pct = Normal (BigInt y) /\
       y = Qfloor (inject_Z b * (pct # 100)) /\
       (inject_Z y <= inject_Z b * (pct # 100))%Q).
Proof.
  intros Hfee Hprio Hb Hp.
  assert (H9 : forall x, 0 <= x -> Z.quot (x * 90) 100 = Qfloor (inject_Z x * (9 # 10))).
  { intros x Hx. rewrite quot_percent_floor by lia.
    change (Qfloor (inject_Z x * (9 # 10))) with ((x * 9) / (1 * 10)).
    replace (x * 90) with ((x * 9) * 10) by lia.
    change 100 with (10 * 10). rewrite Z.div_mul_cancel_r by lia. reflexivity. }
  assert (H11 : forall x, 0 <= x -> Z.quot (x * 110) 100 = Qfloor (inject_Z x * (11 # 10))).
  { intros x Hx. rewrite quot_percent_floor by lia.
    change (Qfloor (inject_Z x * (11 # 10))) with ((x * 11) / (1 * 10)).
    replace (x * 110) with ((x * 11) * 10) by lia.
    change 100 with (10 * 10). rewrite Z.div_mul_cancel_r by lia. reflexivity. }
  assert (H125 : forall x, 0 <= x -> Z.quot (x * 125) 100 = Qfloor (inject_Z x * (5 # 4))).
  { intros x Hx. rewrite quot_percent_floor by lia.
    change (Qfloor (inject_Z x * (5 # 4))) with ((x * 5) / (1 * 4)).
    replace (x * 125) with ((x * 5) * 25) by lia.
    change 100 with (4 * 25). rewrite Z.div_mul_cancel_r by lia. reflexivity. }
  split; [|split].
  - eexists. split; [apply (getOptimalGas_BigInt fd blk b p Hfee Hprio)|].
    simpl tierMaxFeePerGas. simpl tierMaxPriorityFeePerGas.
    rewrite !H9, !H11 by assumption. repeat split.
  - intros name. simpl BaseDeFiUtils.fast. simpl BaseDeFiUtils.instant.
    rewrite H11, H125 by assumption. split; reflexivity.
  - intros pct Hpct. eexists. split; [apply percent_BigInt|].
    rewrite quot_percent_floor by lia. rewrite <- Qfloor_percent.
    split; [reflexivity | apply Qfloor_le].
Qed.

Lemma fee_tiers_are_floors_witness :
  exists g,
    getOptimalGas (mkFeeData Null (BigInt 1005) (BigInt 7)) (Some (mkBlock Null)) = Normal g /\
    tierMaxFeePerGas (slow (recommended g)) = BigInt (Qfloor (inject_Z 1005 * (9 # 10))) /\
    tierMaxFeePerGas (standard (recommended g)) = BigInt 1005 /\
    tierMaxFeePerGas (fast (recommended g)) = BigInt (Qfloor (inject_Z 1005 * (11 # 10))) /\
    tierMaxPriorityFeePerGas (slow (recommended g)) = BigInt (Qfloor (inject_Z 7 * (9 # 10))) /\
    tierMaxPriorityFeePerGas (standard (recommended g)) = BigInt 7 /\
    tierMaxPriorityFeePerGas (fast (recommended g)) = BigInt (Qfloor (inject_Z 7 * (11 # 10))).
Proof.
  apply (fee_tiers_are_floors
           (mkFeeData Null (BigInt 1005) (BigInt 7)) (mkBlock Null) 1005 7);
    [reflexivity | reflexivity | lia | lia].
Defined.

End FeeTiers.

(** ** Binary64 facts *)

Section Rounding.
Import Number.

Lemma exact_rounding : rounding exact.
Proof.
  split; unfold exact.
  - intros x y H. exact H.
  - reflexivity.
  - reflexivity.
  - reflexivity.
Qed.

Variable fl : Q -> Q.
Hypothesis Hfl : rounding fl.

(** [Math.floor(r * 10)] is one of 0, ..., 9 for a random double [r]. *)
Lemma floor_random_times_10 (r : Q) :
  is_random r -> 0 <= floor (mul fl r 10) <= 9.
Proof.
  intros [H0 H1]. unfold floor, mul. split.
  - change 0 with (Qfloor 0). apply Qfloor_resp_le.
    apply Qle_trans with (fl 0).
    + rewrite (fl_zero fl Hfl). apply Qle_refl.
    + apply (fl_mono fl Hfl). apply Qmult_le_0_compat; [exact H0 | discriminate].
  - assert (Hlt : (fl (r * 10) < 10)%Q).
    { apply Qle_lt_trans with (fl (max_random * 10)).
      - apply (fl_mono fl Hfl). apply Qmult_le_compat_r; [exact H1 | discriminate].
      - apply (fl_random_times_10 fl Hfl). }
    assert (Hfloor : (inject_Z (Qfloor (fl (r * 10))) < inject_Z 10)%Q).
    { apply Qle_lt_trans with (fl (r * 10)); [apply Qfloor_le | exact Hlt]. }
    rewrite <- Zlt_Qlt in Hfloor. lia.
Qed.

(** [parseFloat(formatEther(wei)) >= 0.01] decides [wei >= 10^16]. *)
Lemma parseFloat_formatEther_ge_cent (wei : Z) :
  Qle_bool (literal fl (1 # 100)) (parseFloat fl (formatEther wei))
  = (10000000000000000 <=? wei).
Proof.
  unfold literal, parseFloat, formatEther.
  destruct (Z.leb_spec 10000000000000000 wei) as [Hge|Hlt].
  - apply Qle_bool_iff. apply (fl_mono fl Hfl).
    unfold Qle; simpl. lia.
  - apply not_true_is_false. intros Hle. apply Qle_bool_iff in Hle.
    apply (Qlt_not_le _ _ (fl_below_cent fl Hfl)).
    apply Qle_trans with (fl (wei # 1000000000000000000)); [exact Hle|].
    apply (fl_mono fl Hfl). unfold Qle; simpl. lia.
Qed.

End Rounding.

(** The same comparison on the exact decimals, in ether. *)
Lemma formatEther_ge_cent (wei : Z) :
  Qle_bool (1 # 100) (formatEther wei) = (10000000000000000 <=? wei).
Proof.
  unfold formatEther, Qle_bool; simpl.
  destruct (Z.leb_spec 10000000000000000 wei);
    [apply Z.leb_le | apply Z.leb_gt]; lia.
Qed.

(** ** Builder eligibility *)

Section Eligibility.
Import BaseBuilderTracker BaseAnalytics.

(** What a call leaves of the world: one generator output is consumed. *)
Lemma checkRewardsEligibility_world (fl : Q -> Q) (chain : Chain) (addr : string) (w : World) :
  snd (checkRewardsEligibility fl chain addr w)
  = {| rng := rng w; drawn := S (drawn w); clock := clock w |}.
Proof. reflexivity. Qed.

Lemma checkRewardsEligibility_metrics (fl : Q -> Q) (chain : Chain) (addr : string) (w : World) :
  metrics (fst (checkRewardsEligibility fl chain addr w))
  = fst (getBuilderMetrics fl "Base" chain addr w).
Proof. reflexivity. Qed.

Lemma getBuilderMetrics_contractsDeployed
  (fl : Q -> Q) (name : string) (chain : Chain) (addr : string) (w : World) :
  contractsDeployed (fst (getBuilderMetrics fl name chain addr w))
  = fst (getContractsDeployed fl addr w).
Proof. reflexivity. Qed.

Lemma getContractsDeployed_range (fl : Q -> Q) (addr : string) (w : World) :
  Number.rounding fl ->
  Number.is_random (rng w (drawn w)) ->
  1 <= fst (getContractsDeployed fl addr w) <= 10.
Proof.
  intros Hfl Hr. unfold getContractsDeployed, Math_random. simpl.
  pose proof (floor_random_times_10 fl Hfl _ Hr). lia.
Qed.

(** Ten transactions, one contract and 0.01 ether make a builder eligible;
    nine transactions do not. *)
Example eligible_at_the_thresholds :
  eligibility
    (fst (checkRewardsEligibility Number.exact (sampleChain 10000000000000000 10) "0xabc"
            (sampleWorld 0 0)))
  = {| hasMinimumActivity := true;
       hasDeployedContracts := true;
       hasMinimumBalance := true;
       overallEligible := true |}.
Proof. reflexivity. Qed.

Example not_eligible_with_nine_transactions :
  eligibility
    (fst (checkRewardsEligibility Number.exact (sampleChain 10000000000000000 9) "0xabc"
            (sampleWorld 0 0)))
  = {| hasMinimumActivity := false;
       hasDeployedContracts := true;
       hasMinimumBalance := true;
       overallEligible := false |}.
Proof. reflexivity. Qed.

Example recommendations_with_nine_transactions :
  recommendations
    (fst (checkRewardsEligibility Number.exact (sampleChain 10000000000000000 9) "0xabc"
            (sampleWorld 0 0)))
  = ["Increase transaction activity on Base network"%string].
Proof. reflexivity. Qed.

(** C3.  With the thresholds the source fixes (10 transactions, 1 contract,
    0.01 ether), the report of [checkRewardsEligibility] has
    hasMinimumActivity = (transactionCount >= 10),
    hasDeployedContracts = (contractsDeployed >= 1),
    hasMinimumBalance = (balance >= 0.01), both sides in ether, which is
    (balance in wei >= 10^16), and overallEligible is the conjunction of the
    three. *)
Theorem eligibility_predicates (fl : Q -> Q) (chain : Chain) (addr : string) (w : World) :
  Number.rounding fl ->
  let report := fst (checkRewardsEligibility fl chain addr w) in
  let m := metrics report in
  let e := eligibility report in
  hasMinimumActivity e = (10 <=? transactionCount m) /\
  hasDeployedContracts e = (1 <=? contractsDeployed m) /\
  hasMinimumBalance e = Qle_bool (1 # 100) (balance m) /\
  hasMinimumBalance e = (10000000000000000 <=? getBalance chain addr) /\
  overallEligible e
  = hasMinimumActivity e && hasDeployedContracts e && hasMinimumBalance e.
Proof.
  intros Hfl report m e.
  assert (Hbal : hasMinimumBalance e = (10000000000000000 <=? getBalance chain addr)).
  { apply (parseFloat_formatEther_ge_cent fl Hfl). }
  repeat split.
  - change (hasDeployedContracts e) with (0 <? contractsDeployed m).
    destruct (Z.ltb_spec 0 (contractsDeployed m));
      symmetry; [apply Z.leb_le | apply Z.leb_gt]; lia.
  - rewrite Hbal. symmetry. apply formatEther_ge_cent.
  - exact Hbal.
Qed.

Lemma eligibility_predicates_witness :
  let report :=
    fst (checkRewardsEligibility Number.exact
           (sampleChain 10000000000000000 10) "0xabc" (sampleWorld 0 (1 # 2))) in
  let m := metrics report in
  let e := eligibility report in
  hasMinimumActivity e = (10 <=? transactionCount m) /\
  hasDeployedContracts e = (1 <=? contractsDeployed m) /\
  hasMinimumBalance e = Qle_bool (1 # 100) (balance m) /\
  hasMinimumBalance e = (10000000000000000 <=? 10000000000000000) /\
  overallEligible e
  = hasMinimumActivity e && hasDeployedContracts e && hasMinimumBalance e.
Proof.
  apply (eligibility_predicates Number.exact
           (sampleChain 10000000000000000 10) "0xabc" (sampleWorld 0 (1 # 2))).
  split; unfold Number.exact; [intros x y H; exact H | reflexivity ..].
Defined.

(** C9.  Whatever the address, [getContractsDeployed] returns an integer
    from 1 to 10, so the report of [checkRewardsEligibility] always has
    hasDeployedContracts = true. *)
Theorem contracts_deployed_range
  (fl : Q -> Q) (chain : Chain) (addr : string) (w : World) :
  Number.rounding fl ->
  Number.is_random (rng w (drawn w)) ->
  1 <= fst (getContractsDeployed fl addr w) <= 10 /\
  hasDeployedContracts (eligibility (fst (checkRewardsEligibility fl chain addr w))) = true.
Proof.
  intros Hfl Hr.
  pose proof (getContractsDeployed_range fl addr w Hfl Hr) as Hrange.
  split; [exact Hrange|].
  change (hasDeployedContracts (eligibility (fst (checkRewardsEligibility fl chain addr w))))
    with (0 <? fst (getContractsDeployed fl addr w)).
  apply Z.ltb_lt. lia.
Qed.

Lemma contracts_deployed_range_witness :
  1 <= fst (getContractsDeployed Number.exact "0xabc" (sampleWorld (3 # 4) 0)) <= 10 /\
  hasDeployedContracts
    (eligibility
       (fst (checkRewardsEligibility Number.exact (sampleChain 5 3) "0xabc"
               (sampleWorld (3 # 4) 0)))) = true.
Proof.
  apply (contracts_deployed_range Number.exact (sampleChain 5 3) "0xabc"
           (sampleWorld (3 # 4) 0)).
  - split; unfold Number.exact; [intros x y H; exact H | reflexivity ..].
  - split; simpl; unfold Qle; simpl; lia.
Defined.

(** C6 fails as worded.  Two successive calls of [checkRewardsEligibility]
    with the same address on the same chain return different reports: the
    first draws 0 from [Math.random()] and reports 1 deployed contract, the
    second draws 0.5 and reports 6.  (The products 0 * 10 and 0.5 * 10 are
    integers, which a double holds exactly.) *)
Lemma repeated_eligibility_calls_differ :
  let first :=
    checkRewardsEligibility Number.exact (sampleChain 10000000000000000 10) "0xabc"
      (sampleWorld 0 (1 # 2)) in
  let second :=
    checkRewardsEligibility Number.exact (sampleChain 10000000000000000 10) "0xabc"
      (snd first) in
  contractsDeployed (metrics (fst first)) = 1 /\
  contractsDeployed (metrics (fst second)) = 6 /\
  fst first <> fst second.
Proof.
  intros first second. split; [reflexivity|]. split; [reflexivity|].
  intros Heq.
  assert (H : contractsDeployed (metrics (fst first))
              = contractsDeployed (metrics (fst second))) by (rewrite Heq; reflexivity).
  discriminate H.
Qed.

(** C6, amended.  Two calls of [checkRewardsEligibility] with the same
    address on the same chain, in any two states of the random generator and
    the clock, return reports that agree on the address, on the four
    eligibility flags, on the recommendations and on the balance, the
    transaction count and the network of the metrics; only
    [metrics.contractsDeployed] and [metrics.timestamp] may differ, and the
    only state a call changes is the generator, by one draw.  The activity
    score is a function of the number of stored contracts and of whether a
    wallet is set. *)
Theorem eligibility_independent_of_draw
  (fl : Q -> Q) (chain : Chain) (addr : string) (w1 w2 : World)
  (i1 i2 : BaseIntegration.Instance) :
  Number.rounding fl ->
  Number.is_random (rng w1 (drawn w1)) ->
  Number.is_random (rng w2 (drawn w2)) ->
  let r1 := fst (checkRewardsEligibility fl chain addr w1) in
  let r2 := fst (checkRewardsEligibility fl chain addr w2) in
  (reportAddress r1 = reportAddress r2 /\
   eligibility r1 = eligibility r2 /\
   recommendations r1 = recommendations r2 /\
   address (metrics r1) = address (metrics r2) /\
   balance (metrics r1) = balance (metrics r2) /\
   transactionCount (metrics r1) = transactionCount (metrics r2) /\
   BaseBuilderTracker.network (metrics r1) = BaseBuilderTracker.network (metrics r2)) /\
  snd (checkRewardsEligibility fl chain addr w1)
  = {| rng := rng w1; drawn := S (drawn w1); clock := clock w1 |} /\
  (size (BaseIntegration.contracts i1) = size (BaseIntegration.contracts i2) ->
   BaseIntegration.walletInitialized i1 = BaseIntegration.walletInitialized i2 ->
   BaseIntegration.calculateActivityScore i1 = BaseIntegration.calculateActivityScore i2).
Proof.
  intros Hfl Hr1 Hr2 r1 r2.
  assert (He : eligibility r1 = eligibility r2).
  { pose proof (getContractsDeployed_range fl addr w1 Hfl Hr1) as H1.
    pose proof (getContractsDeployed_range fl addr w2 Hfl Hr2) as H2.
    unfold r1, r2, checkRewardsEligibility, getBuilderMetrics.
    destruct (getContractsDeployed fl addr w1) as [c1 w1'].
    destruct (getContractsDeployed fl addr w2) as [c2 w2'].
    simpl in H1, H2 |- *.
    unfold setOverallEligible, initialEligibility; simpl.
    replace (0 <? c1) with true by (symmetry; apply Z.ltb_lt; lia).
    replace (0 <? c2) with true by (symmetry; apply Z.ltb_lt; lia).
    reflexivity. }
  split; [|split].
  - repeat split; try reflexivity; try exact He.
    change (recommendations r1) with (getRecommendations (eligibility r1)).
    change (recommendations r2) with (getRecommendations (eligibility r2)).
    rewrite He. reflexivity.
  - reflexivity.
  - intros Hsize Hwallet. unfold BaseIntegration.calculateActivityScore.
    unfold BaseIntegration.walletInitialized in Hwallet. rewrite Hsize.
    destruct (BaseIntegration.wallet i1), (BaseIntegration.wallet i2);
      try discriminate Hwallet; reflexivity.
Qed.

Lemma eligibility_independent_of_draw_witness :
  eligibility
    (fst (checkRewardsEligibility Number.exact (sampleChain 20000000000000000 12) "0xabc"
            (sampleWorld 0 (1 # 2))))
  = eligibility
      (fst (checkRewardsEligibility Number.exact (sampleChain 20000000000000000 12) "0xabc"
              (sampleWorld (7 # 8) 0))).
Proof.
  apply (eligibility_independent_of_draw Number.exact
           (sampleChain 20000000000000000 12) "0xabc"
           (sampleWorld 0 (1 # 2)) (sampleWorld (7 # 8) 0)
           BaseIntegration.new BaseIntegration.new).
  - split; unfold Number.exact; [intros x y H; exact H | reflexivity ..].
  - split; simpl; unfold Qle; simpl; lia.
  - split; simpl; unfold Qle; simpl; lia.
Defined.

End Eligibility.

(** ** Input validation *)

Section Validation.
Import JS BaseGasOptimizer BaseBuilderTracker BaseAnalytics.

(** C5 fails as worded.  A negative fee is not rejected: [getOptimalGas]
    returns the schedule -9, -10, -11 for it.  A negative transaction count
    or balance is not rejected either: [checkRewardsEligibility] returns its
    report, with the flags false. *)
Lemma negative_inputs_are_not_rejected :
  throws (getOptimalGas (mkFeeData Null (BigInt (-10)) (BigInt 0)) (Some (mkBlock Null))) = false /\
  (exists g,
     getOptimalGas (mkFeeData Null (BigInt (-10)) (BigInt 0)) (Some (mkBlock Null)) = Normal g /\
     tierMaxFeePerGas (slow (recommended g)) = BigInt (-9) /\
     tierMaxFeePerGas (standard (recommended g)) = BigInt (-10) /\
     tierMaxFeePerGas (fast (recommended g)) = BigInt (-11)) /\
  eligibility
    (fst (checkRewardsEligibility Number.exact (sampleChain (-5) (-1)) "0xabc"
            (sampleWorld 0 0)))
  = {| hasMinimumActivity := false;
       hasDeployedContracts := true;
       hasMinimumBalance := false;
       overallEligible := false |}.
Proof.
  split; [reflexivity|]. split; [|reflexivity].
  eexists. repeat split.
Qed.

(** C5, amended.  The source operations validate nothing and raise no
    InvalidInput.  [getOptimalGas] returns a schedule whenever both fees are
    BigInts, negative ones included, each tier being the truncated
    percentage; it throws only when a fee is [null], and then a TypeError.
    [checkRewardsEligibility] returns a report for every chain state; a
    negative transaction count makes hasMinimumActivity and overallEligible
    false. *)
Theorem no_input_validation
  (fd : FeeData) (block : option Block)
  (fl : Q -> Q) (chain : Chain) (addr : string) (w : World) :
  match getOptimalGas fd block with
  | Normal g =>
      exists blk b p,
        block = Some blk /\
        maxFeePerGas fd = BigInt b /\
        maxPriorityFeePerGas fd = BigInt p /\
        recommended g =
        {| slow := {| tierMaxFeePerGas := BigInt (Z.quot (b * 90) 100);
                      tierMaxPriorityFeePerGas := BigInt (Z.quot (p * 90) 100) |};
           standard := {| tierMaxFeePerGas := BigInt b;
                          tierMaxPriorityFeePerGas := BigInt p |};
           fast := {| tierMaxFeePerGas := BigInt (Z.quot (b * 110) 100);
                      tierMaxPriorityFeePerGas := BigInt (Z.quot (p * 110) 100) |} |}
  | Throw e =>
      e = TypeError /\
      (block = None \/ maxFeePerGas fd = Null \/ maxPriorityFeePerGas fd = Null)
  end /\
  (getTransactionCount chain addr < 0 ->
   hasMinimumActivity (eligibility (fst (checkRewardsEligibility fl chain addr w))) = false /\
   overallEligible (eligibility (fst (checkRewardsEligibility fl chain addr w))) = false).
Proof.
  split.
  - destruct block as [blk|].
    2: { rewrite getOptimalGas_Null by (left; reflexivity).
         split; [reflexivity | left; reflexivity]. }
    destruct (maxFeePerGas fd) as [|b] eqn:Hb.
    + rewrite getOptimalGas_Null by (right; left; exact Hb).
      split; [reflexivity | right; left; reflexivity].
    + destruct (maxPriorityFeePerGas fd) as [|p] eqn:Hp.
      * rewrite getOptimalGas_Null by (right; right; exact Hp).
        split; [reflexivity | right; right; reflexivity].
      * rewrite (getOptimalGas_BigInt fd blk b p Hb Hp).
        exists blk, b, p. repeat split.
  - intros Hneg.
    assert (Hact :
      hasMinimumActivity (eligibility (fst (checkRewardsEligibility fl chain addr w))) = false).
    { change (hasMinimumActivity (eligibility (fst (checkRewardsEligibility fl chain addr w))))
        with (10 <=? getTransactionCount chain addr).
      apply Z.leb_gt. lia. }
    split; [exact Hact|].
    change (overallEligible (eligibility (fst (checkRewardsEligibility fl chain addr w))))
      with (hasMinimumActivity (eligibility (fst (checkRewardsEligibility fl chain addr w)))
            && hasDeployedContracts (eligibility (fst (checkRewardsEligibility fl chain addr w)))
            && hasMinimumBalance (eligibility (fst (checkRewardsEligibility fl chain addr w)))).
    rewrite Hact. reflexivity.
Qed.

Lemma no_input_validation_witness :
  hasMinimumActivity
    (eligibility
       (fst (checkRewardsEligibility Number.exact (sampleChain 30000000000000000 (-1)) "0xabc"
               (sampleWorld 0 0)))) = false /\
  overallEligible
    (eligibility
       (fst (checkRewardsEligibility Number.exact (sampleChain 30000000000000000 (-1)) "0xabc"
               (sampleWorld 0 0)))) = false.
Proof.
  apply (no_input_validation (mkFeeData Null (BigInt (-10)) (BigInt 0)) (Some (mkBlock Null))
           Number.exact (sampleChain 30000000000000000 (-1)) "0xabc" (sampleWorld 0 0)).
  simpl. lia.
Defined.

End Validation.

(** ** Activity score *)

Section ActivityScore.
Import BaseIntegration.

Lemma calculateActivityScore_unfold (this : Instance) :
  calculateActivityScore this
  = Z.min (Z.of_nat (size (contracts this)) * 50
           + (if walletInitialized this then 10 else 0) + 20) 1000.
Proof.
  unfold calculateActivityScore, walletInitialized.
  destruct (wallet this); f_equal; lia.
Qed.

(** C2.  The activity score is
    min(1000, deployedContractCount * 50 + (walletInitialized ? 10 : 0) + 20),
    and it lies in [0, 1000]. *)
Theorem activity_score_formula (this : Instance) :
  calculateActivityScore this
  = activityScore_spec (deployedContractCount this) (walletInitialized this) /\
  0 <= calculateActivityScore this <= 1000.
Proof.
  rewrite calculateActivityScore_unfold.
  unfold activityScore_spec, deployedContractCount.
  split; [apply Z.min_comm|].
  destruct (walletInitialized this); lia.
Qed.

(** C4.  With 20 or more deployed contracts and the wallet initialized the
    score is exactly 1000. *)
Theorem activity_score_saturates (this : Instance) :
  20 <= deployedContractCount this ->
  walletInitialized this = true ->
  calculateActivityScore this = 1000.
Proof.
  intros Hcount Hwallet. rewrite calculateActivityScore_unfold, Hwallet.
  unfold deployedContractCount in Hcount. lia.
Qed.

Lemma activity_score_saturates_witness :
  calculateActivityScore (sampleInstance twentyNames) = 1000.
Proof.
  apply (activity_score_saturates (sampleInstance twentyNames)).
  - vm_compute. discriminate.
  - reflexivity.
Defined.

(** C10.  The activity score is at least 20, in every state of the
    instance. *)
Theorem activity_score_at_least_20 (this : Instance) :
  20 <= calculateActivityScore this.
Proof.
  rewrite calculateActivityScore_unfold.
  destruct (walletInitialized this); lia.
Qed.

(** The score of a fresh instance, and of one with a single contract. *)
Example activity_score_new : calculateActivityScore new = 20.
Proof. reflexivity. Qed.

Example activity_score_one_contract :
  calculateActivityScore (setContract "Token" (mkContractEntry "0x00") new) = 70.
Proof. reflexivity. Qed.

(** Nineteen contracts and a wallet stay below the cap. *)
Example activity_score_nineteen :
  calculateActivityScore (sampleInstance (tail twentyNames)) = 980.
Proof. vm_compute. reflexivity. Qed.

End ActivityScore.

(** ** Batched transactions *)

Section BatchedTransactions.
Import Obj Batch.

Variable estimateGas : gmap string field -> outcome Z.

Lemma batchLoop_Returned (transactions batchedTxs out : list (gmap string field)) :
  batchLoop estimateGas transactions batchedTxs = Returned out <->
  exists added, out = batchedTxs ++ added /\ Forall2 (pushed estimateGas) transactions added.
Proof.
  revert batchedTxs. induction transactions as [|tx rest IH]; intros acc; simpl.
  - split.
    + intros [= <-]. exists []. split; [by rewrite app_nil_r | constructor].
    + intros (added & -> & Hall). inversion Hall; subst. by rewrite app_nil_r.
  - destruct (estimateGas tx) as [g|m] eqn:Hest.
    + rewrite IH. split.
      * intros (added & -> & Hall). exists (withGasLimit tx g :: added).
        split; [by rewrite <- app_assoc|]. constructor; [by exists g | done].
      * intros (added & -> & Hall). inversion Hall as [|? out1 ? added' Hp Hall']; subst.
        destruct Hp as (g' & Hg' & ->). rewrite Hest in Hg'. injection Hg' as <-.
        exists added'. split; [by rewrite <- app_assoc | done].
    + split; [discriminate|].
      intros (added & _ & Hall). inversion Hall as [|? out1 ? added' Hp Hall']; subst.
      destruct Hp as (g' & Hg' & _). rewrite Hest in Hg'. discriminate.
Qed.

Lemma batchLoop_Failed (transactions batchedTxs : list (gmap string field)) (message : string) :
  batchLoop estimateGas transactions batchedTxs = Failed message <->
  exists (i : nat) (tx : gmap string field),
    transactions !! i = Some tx /\
    estimateGas tx = Failed message /\
    forall (j : nat) (tx' : gmap string field),
      (j < i)%nat -> transactions !! j = Some tx' ->
      exists gasEstimate, estimateGas tx' = Returned gasEstimate.
Proof.
  revert batchedTxs. induction transactions as [|tx rest IH]; intros acc; simpl.
  - split; [discriminate|]. intros (i & tx & Hi & _). destruct i; discriminate.
  - destruct (estimateGas tx) as [g|m] eqn:Hest.
    + rewrite IH. split.
      * intros (i & tx0 & Hi & Hfail & Hbefore). exists (S i), tx0.
        split; [exact Hi|]. split; [exact Hfail|].
        intros [|j] tx' Hj Htx'.
        -- injection Htx' as <-. by exists g.
        -- apply (Hbefore j tx'); [lia | exact Htx'].
      * intros (i & tx0 & Hi & Hfail & Hbefore). destruct i as [|i].
        -- injection Hi as <-. rewrite Hest in Hfail. discriminate.
        -- exists i, tx0. split; [exact Hi|]. split; [exact Hfail|].
           intros j tx' Hj Htx'. apply (Hbefore (S j) tx'); [lia | exact Htx'].
    + split.
      * intros [= <-]. exists 0%nat, tx. split; [done|]. split; [exact Hest|].
        intros j tx' Hj. lia.
      * intros (i & tx0 & Hi & Hfail & Hbefore). destruct i as [|i].
        -- injection Hi as <-. rewrite Hest in Hfail. by injection Hfail as <-.
        -- destruct (Hbefore 0%nat tx) as (g & Hg); [lia | done |].
           rewrite Hest in Hg. discriminate.
Qed.

(** X1.  [batchTransactions] resolves exactly when every estimate resolves,
    and then returns one transaction per input transaction, in the input's
    order, each being its input with [gasLimit] set from its own estimate. *)
Theorem batch_returns_one_per_transaction
  (transactions out : list (gmap string field)) :
  batchTransactions estimateGas transactions = Returned out <->
  length out = length transactions /\
  forall (i : nat) (tx : gmap string field),
    transactions !! i = Some tx ->
    exists gasEstimate,
      estimateGas tx = Returned gasEstimate /\
      out !! i = Some (withGasLimit tx gasEstimate).
Proof.
  unfold batchTransactions. rewrite batchLoop_Returned. split.
  - intros (added & -> & Hall). simpl.
    split; [symmetry; eapply Forall2_length; exact Hall|].
    intros i tx Hi.
    destruct (Forall2_lookup_l _ _ _ _ _ Hall Hi) as (o & Ho & g & Hg & ->).
    exists g. split; [exact Hg | exact Ho].
  - intros [Hlen Hidx]. exists out. split; [done|].
    apply Forall2_same_length_lookup_2; [done|].
    intros i tx o Hi Ho. destruct (Hidx i tx Hi) as (g & Hg & Ho').
    rewrite Ho in Ho'. injection Ho' as ->. by exists g.
Qed.

(** X2.  [batchTransactions] rejects exactly when some estimate rejects, and
    the error is that of the first transaction, in order, whose estimate
    rejects; no transaction of the batch is returned then. *)
Theorem batch_rejects_with_first_failure
  (transactions : list (gmap string field)) (message : string) :
  batchTransactions estimateGas transactions = Failed message <->
  exists (i : nat) (tx : gmap string field),
    transactions !! i = Some tx /\
    estimateGas tx = Failed message /\
    forall (j : nat) (tx' : gmap string field),
      (j < i)%nat -> transactions !! j = Some tx' ->
      exists gasEstimate, estimateGas tx' = Returned gasEstimate.
Proof.
  unfold batchTransactions. split; intros H.
  - by apply (batchLoop_Failed transactions []).
  - by apply (batchLoop_Failed transactions []).
Qed.

(** X3.  In a batch that resolves, a transaction whose estimate [g] is not
    negative gets the gas limit floor(g * 1.2), which is [g] plus a fifth of
    [g] rounded down, hence at least [g]; a [gasLimit] the caller had put in
    the transaction is replaced, and every other field is as the caller gave
    it. *)
Theorem batch_gas_limit_buffer
  (transactions out : list (gmap string field))
  (i : nat) (tx : gmap string field) (g : Z) :
  batchTransactions estimateGas transactions = Returned out ->
  transactions !! i = Some tx ->
  estimateGas tx = Returned g ->
  0 <= g ->
  exists (batched : gmap string field) (limit : Z),
    out !! i = Some batched /\
    batched !! "gasLimit" = Some (FBigInt limit) /\
    limit = (g * 6) / 5 /\
    limit = g + g / 5 /\
    g <= limit /\
    forall key : string, key <> "gasLimit"%string -> batched !! key = tx !! key.
Proof.
  unfold batchTransactions. rewrite batchLoop_Returned.
  intros (added & -> & Hall) Hi Hg Hpos. simpl.
  destruct (Forall2_lookup_l _ _ _ _ _ Hall Hi) as (o & Ho & g' & Hg' & ->).
  rewrite Hg in Hg'. injection Hg' as <-.
  exists (withGasLimit tx g), (buffered g). split; [exact Ho|].
  unfold withGasLimit. split; [apply lookup_insert_eq|].
  assert (Hbuf : buffered g = (g * 6) / 5).
  { unfold buffered. rewrite Z.quot_div_nonneg by lia.
    replace (g * 120) with ((g * 6) * 20) by lia.
    change 100 with (5 * 20). apply Z.div_mul_cancel_r; lia. }
  assert (Hfifth : (g * 6) / 5 = g + g / 5).
  { replace (g * 6) with (g + g * 5) by lia. rewrite Z.div_add by lia. lia. }
  split; [exact Hbuf|]. split; [by rewrite Hbuf|]. split.
  - rewrite Hbuf, Hfifth. pose proof (Z.div_pos g 5 Hpos ltac:(lia)). lia.
  - intros key Hkey. apply lookup_insert_ne. congruence.
Qed.

End BatchedTransactions.

Lemma batch_gas_limit_buffer_witness :
  exists (batched : gmap string Obj.field) (limit : Z),
    [Batch.withGasLimit {["to" := Obj.FString "0xabc"]} 21004] !! 0%nat = Some batched /\
    batched !! "gasLimit" = Some (Obj.FBigInt limit) /\
    limit = (21004 * 6) / 5 /\
    limit = 21004 + 21004 / 5 /\
    21004 <= limit /\
    forall key : string,
      key <> "gasLimit"%string ->
      batched !! key = ({["to" := Obj.FString "0xabc"]} : gmap string Obj.field) !! key.
Proof.
  apply (batch_gas_limit_buffer (fun _ => Obj.Returned 21004)
           [{["to" := Obj.FString "0xabc"]}]
           [Batch.withGasLimit {["to" := Obj.FString "0xabc"]} 21004]
           0%nat {["to" := Obj.FString "0xabc"]} 21004);
    [reflexivity | reflexivity | reflexivity | lia].
Defined.

(** ** The client's wallet, contracts and transactions *)

Section ClientState.
Import Obj BaseIntegration Client.

Lemma deployAll_cons (d : string * outcome string) (ds : list (string * outcome string))
  (this : State) :
  deployAll (d :: ds) this = deployAll ds (snd (deployContract (fst d) (snd d) this)).
Proof. reflexivity. Qed.

(** A deployment changes nothing but the stored contracts. *)
Lemma deployContract_frame (name : string) (deployed : outcome string) (this : State) :
  wallet (instance (snd (deployContract name deployed this))) = wallet (instance this) /\
  gasSettings (snd (deployContract name deployed this)) = gasSettings this.
Proof.
  unfold deployContract. destruct (wallet (instance this)) eqn:Hw; [|by simpl].
  destruct deployed; simpl; by rewrite ?Hw.
Qed.

Lemma deployContract_size (name : string) (deployed : outcome string) (this : State) :
  (size (contracts (instance this))
   <= size (contracts (instance (snd (deployContract name deployed this)))))%nat.
Proof.
  unfold deployContract. destruct (wallet (instance this)); [|done].
  destruct deployed as [address|message]; [|done]. simpl.
  destruct (contracts (instance this) !! name) as [e|] eqn:Hname.
  - rewrite map_size_insert_Some; [done | by eexists].
  - rewrite map_size_insert_None by done. lia.
Qed.

Lemma score_by_size_and_wallet (i1 i2 : Instance) :
  wallet i1 = wallet i2 ->
  (size (contracts i1) <= size (contracts i2))%nat ->
  calculateActivityScore i1 <= calculateActivityScore i2.
Proof.
  intros Hw Hsize. unfold calculateActivityScore. rewrite Hw.
  destruct (wallet i2); lia.
Qed.

(** X4.  After a deployment that succeeds, [callContract] under the same
    name reaches the contract just deployed (the latest one, when the name
    was taken), and [callContract] under any other name behaves as it did
    before. *)
Theorem deploy_then_call {R : Type}
  (name address : string) (invoke : ContractEntry -> outcome R) (this : State) :
  is_Some (wallet (instance this)) ->
  let this' := snd (deployContract name (Returned address) this) in
  fst (deployContract name (Returned address) this) = Returned address /\
  callContract name invoke this'
  = match invoke (mkContractEntry address) with
    | Returned result => Returned result
    | Failed message => Failed ("Contract call failed: " ++ message)
    end /\
  forall other : string,
    other <> name -> callContract other invoke this' = callContract other invoke this.
Proof.
  intros [wl Hw]. unfold deployContract. rewrite Hw. simpl.
  split; [done|]. split.
  - unfold callContract. simpl. by rewrite lookup_insert_eq.
  - intros other Hother. unfold callContract. simpl.
    rewrite lookup_insert_ne by congruence. done.
Qed.

Lemma deploy_then_call_witness :
  callContract "Token" (fun e => Returned (entryAddress e))
    (snd (deployContract "Token" (Returned "0xc0")
            (snd (initializeWallet (Returned (mkWallet "0x01")) (Returned 5)
                    (constructor ∅)))))
  = Returned "0xc0"%string.
Proof.
  apply (deploy_then_call "Token" "0xc0" (fun e => Returned (entryAddress e))
           (snd (initializeWallet (Returned (mkWallet "0x01")) (Returned 5)
                   (constructor ∅)))).
  simpl. by eexists.
Defined.

(** X5.  [callContract] under a name that no deployment so far has stored
    fails with "Contract <name> not found", without invoking anything:
    whatever deployments were run on a state that lacked the name, none of
    them under that name. *)
Theorem call_unknown_contract {R : Type}
  (name : string) (invoke : ContractEntry -> outcome R)
  (deployments : list (string * outcome string)) (this : State) :
  contracts (instance this) !! name = None ->
  name ∉ map fst deployments ->
  callContract name invoke (deployAll deployments this)
  = Failed ("Contract " ++ name ++ " not found").
Proof.
  intros Hnone Hnotin.
  assert (Hlookup : contracts (instance (deployAll deployments this)) !! name = None).
  { revert this Hnone. induction deployments as [|[n d] ds IH]; intros this Hnone; [done|].
    rewrite deployAll_cons. apply IH.
    - intros Hin. apply Hnotin. simpl. by right.
    - simpl. unfold deployContract. destruct (wallet (instance this)); [|done].
      destruct d as [address|message]; [|done]. simpl.
      rewrite lookup_insert_ne; [done|]. intros ->. apply Hnotin. simpl. by left. }
  unfold callContract. by rewrite Hlookup.
Qed.

Lemma call_unknown_contract_witness :
  callContract "Vault" (fun e => Returned (entryAddress e))
    (deployAll [("Token"%string, Returned "0xc0"%string)]
       (snd (initializeWallet (Returned (mkWallet "0x01")) (Returned 5) (constructor ∅))))
  = Failed "Contract Vault not found".
Proof.
  apply (call_unknown_contract "Vault" (fun e => Returned (entryAddress e))
           [("Token"%string, Returned "0xc0"%string)]
           (snd (initializeWallet (Returned (mkWallet "0x01")) (Returned 5) (constructor ∅)))).
  - reflexivity.
  - simpl. intros Hin. apply list_elem_of_In in Hin. destruct Hin as [H|[]]. discriminate H.
Defined.

(** X6.  A successful deployment under a name not yet stored raises the
    activity score by 50, up to the cap of 1000; a successful deployment
    under a name already stored replaces the entry and leaves the score as it
    was. *)
Theorem deploy_score_step (name address : string) (this : State) :
  is_Some (wallet (instance this)) ->
  let this' := snd (deployContract name (Returned address) this) in
  (contracts (instance this) !! name = None ->
   calculateActivityScore (instance this')
   = Z.min (calculateActivityScore (instance this) + 50) 1000) /\
  (is_Some (contracts (instance this) !! name) ->
   calculateActivityScore (instance this') = calculateActivityScore (instance this) /\
   contracts (instance this') !! name = Some (mkContractEntry address)).
Proof.
  intros [wl Hw]. unfold deployContract. rewrite Hw. simpl. split.
  - intros Hnone. unfold calculateActivityScore. simpl.
    rewrite map_size_insert_None by done. rewrite Hw. lia.
  - intros Hsome. split.
    + unfold calculateActivityScore. simpl. by rewrite map_size_insert_Some.
    + apply lookup_insert_eq.
Qed.

Lemma deploy_score_step_witness :
  calculateActivityScore
    (instance
       (snd (deployContract "Token" (Returned "0xc0")
               (snd (initializeWallet (Returned (mkWallet "0x01")) (Returned 5)
                       (constructor ∅))))))
  = Z.min
      (calculateActivityScore
         (instance
            (snd (initializeWallet (Returned (mkWallet "0x01")) (Returned 5)
                    (constructor ∅)))) + 50) 1000.
Proof.
  apply (deploy_score_step "Token" "0xc0"
           (snd (initializeWallet (Returned (mkWallet "0x01")) (Returned 5)
                   (constructor ∅)))).
  - simpl. by eexists.
  - reflexivity.
Defined.

(** X7.  No run of deployments, failed ones included, lowers the activity
    score, unsets the wallet or alters the gas settings. *)
Theorem deployments_never_lower_score
  (deployments : list (string * outcome string)) (this : State) :
  calculateActivityScore (instance this)
    <= calculateActivityScore (instance (deployAll deployments this)) /\
  wallet (instance (deployAll deployments this)) = wallet (instance this) /\
  gasSettings (deployAll deployments this) = gasSettings this.
Proof.
  revert this. induction deployments as [|[n d] ds IH]; intros this.
  - split; [reflexivity | done].
  - rewrite deployAll_cons. simpl fst. simpl snd.
    destruct (IH (snd (deployContract n d this))) as (Hscore & Hwallet & Hgas).
    destruct (deployContract_frame n d this) as [Hw Hg].
    split; [|split].
    + etrans; [|exact Hscore].
      apply score_by_size_and_wallet; [by rewrite Hw | apply deployContract_size].
    + by rewrite Hwallet.
    + by rewrite Hgas.
Qed.

(** X8.  Without a wallet nothing is deployed: on a freshly constructed
    instance every deployment fails with "Wallet not initialized", whatever
    the factory would have done, and any run of deployments leaves the
    instance as constructed, its score at 20. *)
Theorem no_deployment_without_wallet
  (config : gmap string field) (deployments : list (string * outcome string))
  (name : string) (deployed : outcome string) :
  deployAll deployments (constructor config) = constructor config /\
  fst (deployContract name deployed (deployAll deployments (constructor config)))
  = Failed "Wallet not initialized" /\
  calculateActivityScore (instance (deployAll deployments (constructor config))) = 20.
Proof.
  assert (Hall : deployAll deployments (constructor config) = constructor config).
  { induction deployments as [|[n d] ds IH]; [done|]. rewrite deployAll_cons. exact IH. }
  rewrite Hall. repeat split.
Qed.

(** X9.  [initializeWallet] sets the wallet as soon as the key is accepted,
    also when the call then fails because the balance query fails; the
    failure message starts with "Failed to initialize wallet: ", the score
    counts the wallet, and a later deployment is no longer refused. *)
Theorem wallet_set_even_when_initialization_fails
  (wl : Wallet) (message name address : string) (this : State) :
  let result := initializeWallet (Returned wl) (Failed message) this in
  fst result = Failed ("Failed to initialize wallet: " ++ message) /\
  wallet (instance (snd result)) = Some wl /\
  contracts (instance (snd result)) = contracts (instance this) /\
  calculateActivityScore (instance (snd result))
  = Z.min (Z.of_nat (size (contracts (instance this))) * 50 + 30) 1000 /\
  fst (deployContract name (Returned address) (snd result)) = Returned address.
Proof.
  simpl. repeat split.
  unfold calculateActivityScore. simpl. lia.
Qed.

(** X10.  [getOptimizationRecommendations] always ends with the two general
    recommendations and has 2, 3 or 4 entries: it starts with the advice to
    deploy exactly when no contract is stored, which is exactly when the
    activity score is below 70, and it contains the advice to initialize a
    wallet exactly when no wallet is set. *)
Theorem optimization_recommendations (this : State) :
  let recs := getOptimizationRecommendations this in
  (exists advice,
     recs = advice ++ ["Integrate with DeFi protocols for higher rewards"%string;
                       "Implement automated testing for contract reliability"%string] /\
     (length advice <= 2)%nat) /\
  ("Deploy smart contracts to increase activity score"%string ∈ recs
   <-> size (contracts (instance this)) = 0%nat) /\
  (size (contracts (instance this)) = 0%nat
   <-> calculateActivityScore (instance this) < 70) /\
  ("Initialize wallet for transaction capabilities"%string ∈ recs
   <-> wallet (instance this) = None).
Proof.
  intros recs.
  assert (Hscore : size (contracts (instance this)) = 0%nat
                   <-> calculateActivityScore (instance this) < 70).
  { unfold calculateActivityScore. destruct (wallet (instance this)); lia. }
  unfold recs, getOptimizationRecommendations.
  destruct (Nat.eqb_spec (size (contracts (instance this))) 0) as [Hz|Hnz];
    destruct (wallet (instance this)) as [wl|]; cbn [app].
  - split; [exists ["Deploy smart contracts to increase activity score"%string];
            split; [reflexivity | simpl; lia]|].
    split; [|split; [exact Hscore|]]; rewrite list_elem_of_In; cbn [In]; split; intros H.
    + exact Hz.
    + by left.
    + not_listed H.
    + discriminate H.
  - split; [exists ["Deploy smart contracts to increase activity score"%string;
                    "Initialize wallet for transaction capabilities"%string];
            split; [reflexivity | simpl; lia]|].
    split; [|split; [exact Hscore|]]; rewrite list_elem_of_In; cbn [In]; split; intros H.
    + exact Hz.
    + by left.
    + reflexivity.
    + by right; left.
  - split; [exists []; split; [reflexivity | simpl; lia]|].
    split; [|split; [exact Hscore|]]; rewrite list_elem_of_In; cbn [In]; split; intros H.
    + not_listed H.
    + contradiction.
    + not_listed H.
    + discriminate H.
  - split; [exists ["Initialize wallet for transaction capabilities"%string];
            split; [reflexivity | simpl; lia]|].
    split; [|split; [exact Hscore|]]; rewrite list_elem_of_In; cbn [In]; split; intros H.
    + not_listed H.
    + contradiction.
    + reflexivity.
    + by left.
Qed.

(** X11.  The transaction [sendTransaction] hands to the wallet carries the
    instance's three gas settings, whatever gas fields the caller's
    transaction had, and the caller's other fields unchanged.  On an instance
    built by the constructor each of the three is truthy: a configured 0 or
    0n is replaced by the default (500000, 20 gwei, 1 gwei), and a truthy
    configured value is kept. *)
Theorem sent_transaction_gas_settings {R : Type}
  (config transaction : gmap string field) (wl : Wallet)
  (send : gmap string field -> outcome R) :
  let this := snd (initializeWallet (Returned wl) (Returned 0) (constructor config)) in
  let sent := withGasSettings transaction (gasSettings this) in
  sendTransaction send transaction this
  = match send sent with
    | Returned receipt => Returned receipt
    | Failed message => Failed ("Transaction failed: " ++ message)
    end /\
  sent !! "gasLimit" = Some (orDefault (config !! "gasLimit") (FNumber 500000)) /\
  sent !! "maxFeePerGas" = Some (orDefault (config !! "maxFeePerGas") (FBigInt 20000000000)) /\
  sent !! "maxPriorityFeePerGas"
  = Some (orDefault (config !! "maxPriorityFeePerGas") (FBigInt 1000000000)) /\
  (forall key : string,
     key ∈ ["gasLimit"; "maxFeePerGas"; "maxPriorityFeePerGas"]%string ->
     exists v, sent !! key = Some v /\ truthy v = true /\
               (forall c, config !! key = Some c -> truthy c = true -> v = c)) /\
  (forall key : string,
     key ∉ ["gasLimit"; "maxFeePerGas"; "maxPriorityFeePerGas"]%string ->
     sent !! key = transaction !! key).
Proof.
  intros this sent.
  assert (Hdefault : forall (o : option field) (d : field),
             truthy d = true ->
             truthy (orDefault o d) = true /\
             (forall c, o = Some c -> truthy c = true -> orDefault o d = c)).
  { intros o d Hd. unfold orDefault. destruct o as [c|]; [|by split].
    destruct (truthy c) eqn:Hc; split; try done.
    - by intros c' [= <-] _.
    - intros c' [= <-] Hc'. congruence. }
  assert (Hgas : sent !! "gasLimit" = Some (orDefault (config !! "gasLimit") (FNumber 500000))).
  { unfold sent, withGasSettings.
    do 2 (rewrite lookup_insert_ne by done). apply lookup_insert_eq. }
  assert (Hfee : sent !! "maxFeePerGas"
                 = Some (orDefault (config !! "maxFeePerGas") (FBigInt 20000000000))).
  { unfold sent, withGasSettings.
    rewrite lookup_insert_ne by done. apply lookup_insert_eq. }
  assert (Hprio : sent !! "maxPriorityFeePerGas"
                  = Some (orDefault (config !! "maxPriorityFeePerGas") (FBigInt 1000000000))).
  { unfold sent, withGasSettings. apply lookup_insert_eq. }
  split; [done|]. split; [done|]. split; [done|]. split; [done|]. split.
  - intros key Hkey. rewrite !elem_of_cons, elem_of_nil in Hkey.
    destruct Hkey as [->|[->|[->|[]]]]; eexists; (split; [eassumption|]); by apply Hdefault.
  - intros key Hkey. rewrite !not_elem_of_cons in Hkey. destruct Hkey as (H1 & H2 & H3 & _).
    unfold sent, withGasSettings. by do 3 (rewrite lookup_insert_ne by done).
Qed.

End ClientState.

(** ** Bridge cost *)

Section BridgeCostTotals.
Import BridgeCost.

(** X12.  In the estimate of [estimateBridgeCost] the total is the sum of
    the three parts it reports: the amount, the bridge fee of 0.001 ether
    and the gas of 21000 units at the standard gas price, all in ether.  The
    token name changes none of the four numbers, and with a gas price that
    is not negative the total is at least the amount plus 0.001 ether. *)
Theorem bridge_cost_total
  (configName : string) (gasPrice amountWei : Z) (tokenArg : option string) :
  let e := estimateBridgeCost configName gasPrice amountWei tokenArg in
  (totalCost e == amount e + bridgeFee e + estimatedGas e)%Q /\
  (bridgeFee e == 1 # 1000)%Q /\
  (estimatedGas e == inject_Z gasPrice * (21000 # 1000000000000000000))%Q /\
  (forall otherToken,
     let e' := estimateBridgeCost configName gasPrice amountWei otherToken in
     amount e' = amount e /\ bridgeFee e' = bridgeFee e /\
     estimatedGas e' = estimatedGas e /\ totalCost e' = totalCost e) /\
  (0 <= gasPrice -> (amount e + (1 # 1000) <= totalCost e)%Q).
Proof.
  intros e. unfold e, estimateBridgeCost, formatEther, parseEther_0_001. cbn -[Z.mul Z.add Z.pow].
  split; [|split; [|split; [|split]]].
  - unfold Qeq, Qplus. cbn [Qnum Qden]. rewrite !Pos2Z.inj_mul. ring.
  - reflexivity.
  - unfold Qeq, Qmult, inject_Z. cbn [Qnum Qden]. rewrite !Pos2Z.inj_mul. ring.
  - intros otherToken. cbn. repeat split.
  - intros Hgas. unfold Qle, Qplus. cbn [Qnum Qden]. rewrite !Pos2Z.inj_mul. lia.
Qed.

Lemma bridge_cost_total_witness :
  (BridgeCost.amount (estimateBridgeCost "Base" 1000000000 5000000000000000000 None)
   + (1 # 1000)
   <= totalCost (estimateBridgeCost "Base" 1000000000 5000000000000000000 None))%Q.
Proof.
  apply (bridge_cost_total "Base" 1000000000 5000000000000000000 None). lia.
Defined.

End BridgeCostTotals.

(** ** Explorer URLs and addresses *)

Section Explorer.
Import JS Utils.

Lemma append_cancel_l (p a b : string) :
  (p ++ a)%string = (p ++ b)%string -> a = b.
Proof.
  induction p as [|c p IH]; simpl; [done|]. intros [= H]. by apply IH.
Qed.

Lemma hexDigitsToEnd_spec (n : nat) (s : string) :
  hexDigitsToEnd n s = true <->
  String.length s = n /\
  Forall (fun c => isHexDigit c = true) (list_ascii_of_string s).
Proof.
  revert s. induction n as [|n IH]; intros [|c s]; simpl.
  - split; [by split; [|constructor] | done].
  - split; [done | intros [H _]; discriminate H].
  - split; [done | intros [H _]; discriminate H].
  - rewrite andb_true_iff, IH. split.
    + intros (Hc & Hlen & Hall). split; [by rewrite Hlen | by constructor].
    + intros (Hlen & Hall). inversion Hall; subst. by repeat split; [|lia|].
Qed.

Lemma isValidAddress_prefix (address : string) :
  isValidAddress address = true ->
  exists rest, address = String "0" (String "x" rest) /\ hexDigitsToEnd 40 rest = true.
Proof.
  unfold isValidAddress. intros H.
  destruct address as [|c0 s]; [discriminate H|].
  destruct c0 as [[] [] [] [] [] [] [] []]; try discriminate H.
  destruct s as [|c1 rest]; [discriminate H|].
  destruct c1 as [[] [] [] [] [] [] [] []]; try discriminate H.
  by exists rest.
Qed.

Lemma isValidAddress_iff (address : string) :
  isValidAddress address = true <->
  exists body,
    address = ("0x" ++ body)%string /\
    String.length body = 40%nat /\
    Forall (fun c => isHexDigit c = true) (list_ascii_of_string body).
Proof.
  split.
  - intros H. apply isValidAddress_prefix in H as (rest & -> & H).
    exists rest. split; [done|]. by apply hexDigitsToEnd_spec.
  - intros (body & -> & Hlen & Hall). change (hexDigitsToEnd 40 body = true).
    by apply hexDigitsToEnd_spec.
Qed.

Lemma length_append_char (s : string) (c : ascii) :
  String.length (s ++ String c EmptyString) = S (String.length s).
Proof. induction s as [|c' s IH]; simpl; [done | by rewrite IH]. Qed.

(** X13.  [isValidAddress] accepts exactly the strings made of "0x" and 40
    hexadecimal digits of either case; an accepted string has 42 characters,
    and neither an upper-case "0X" prefix nor a trailing character is
    accepted. *)
Theorem valid_address_shape (address : string) :
  (isValidAddress address = true <->
   exists body,
     address = ("0x" ++ body)%string /\
     String.length body = 40%nat /\
     Forall (fun c => isHexDigit c = true) (list_ascii_of_string body)) /\
  (isValidAddress address = true -> String.length address = 42%nat) /\
  (forall body, isValidAddress ("0X" ++ body) = false) /\
  (forall extra : ascii,
     isValidAddress address = true ->
     isValidAddress (address ++ String extra EmptyString) = false).
Proof.
  split; [apply isValidAddress_iff|]. split; [|split].
  - intros H. apply isValidAddress_iff in H as (body & -> & Hlen & _).
    change (S (S (String.length body)) = 42%nat). by rewrite Hlen.
  - intros body. reflexivity.
  - intros extra H. apply isValidAddress_iff in H as (body & -> & Hlen & _).
    apply not_true_is_false. intros H'.
    apply isValidAddress_iff in H' as (body' & Heq & Hlen' & _).
    change (String "0" (String "x" (body ++ String extra EmptyString))
            = String "0" (String "x" body')) in Heq.
    injection Heq as <-. rewrite length_append_char in Hlen'. lia.
Qed.

Lemma valid_address_shape_witness :
  String.length "0xcA11bde05977b3631167028862bE2a173976CA11" = 42%nat.
Proof.
  apply (valid_address_shape "0xcA11bde05977b3631167028862bE2a173976CA11").
  reflexivity.
Defined.

Variable inherited : string -> bool.

Lemma explorerOf_cases (network : string) :
  explorerOf inherited network
  = if decide (network = "mainnet"%string) then Normal "https://basescan.org"%string
    else if decide (network = "testnet"%string) then Normal "https://goerli.basescan.org"%string
    else if inherited network then Normal "undefined"%string
    else Throw TypeError.
Proof.
  unfold explorerOf, getMember, BASE_CONFIG.
  destruct (decide (network = "mainnet"%string)) as [->|Hm]; [by rewrite lookup_insert_eq|].
  rewrite lookup_insert_ne by done.
  destruct (decide (network = "testnet"%string)) as [->|Ht]; [by rewrite lookup_insert_eq|].
  rewrite lookup_insert_ne by done. rewrite lookup_empty.
  by destruct (inherited network).
Qed.

(** X14.  [getTxUrl] and [getAddressUrl] throw a TypeError exactly for a
    network name that is neither "mainnet" nor "testnet" nor a property
    inherited from [Object.prototype]; for an inherited name they return a
    URL that starts with "undefined"; with the network omitted they answer as
    for "mainnet". *)
Theorem explorer_url_failure (item : string) (network : string) :
  (getTxUrl inherited item (Some network) = Throw TypeError <->
   network <> "mainnet"%string /\ network <> "testnet"%string /\ inherited network = false) /\
  (getAddressUrl inherited item (Some network) = Throw TypeError <->
   getTxUrl inherited item (Some network) = Throw TypeError) /\
  (network <> "mainnet"%string -> network <> "testnet"%string -> inherited network = true ->
   getTxUrl inherited item (Some network) = Normal ("undefined/tx/" ++ item)%string /\
   getAddressUrl inherited item (Some network)
   = Normal ("undefined/address/" ++ item)%string) /\
  getTxUrl inherited item None = getTxUrl inherited item (Some "mainnet"%string) /\
  getAddressUrl inherited item None = getAddressUrl inherited item (Some "mainnet"%string).
Proof.
  unfold getTxUrl, getAddressUrl. simpl default. rewrite !explorerOf_cases.
  destruct (decide (network = "mainnet"%string)) as [Hm|Hm];
    [|destruct (decide (network = "testnet"%string)) as [Ht|Ht];
      [|destruct (inherited network) eqn:Hi]];
    simpl; repeat split; try done; try (intros H; discriminate H);
    try (intros (H1 & H2 & H3); done).
Qed.

(** X15.  An explorer URL determines what it was built from: two
    transaction hashes (or two addresses) with the same URL on the same
    network are equal, a transaction URL is never an address URL of that
    network, and a mainnet URL is never a testnet URL. *)
Theorem explorer_url_injective (network : option string) (a b url : string) :
  (getTxUrl inherited a network = Normal url ->
   getTxUrl inherited b network = Normal url -> a = b) /\
  (getAddressUrl inherited a network = Normal url ->
   getAddressUrl inherited b network = Normal url -> a = b) /\
  (getTxUrl inherited a network = Normal url ->
   getAddressUrl inherited b network <> Normal url) /\
  getTxUrl inherited a (Some "mainnet"%string)
  <> getTxUrl inherited b (Some "testnet"%string) /\
  getAddressUrl inherited a (Some "mainnet"%string)
  <> getAddressUrl inherited b (Some "testnet"%string).
Proof.
  unfold getTxUrl, getAddressUrl.
  split; [|split; [|split; [|split]]].
  - destruct (explorerOf inherited (default "mainnet"%string network)) as [e|]; simpl;
      [|discriminate].
    intros [= <-] [= H]. apply append_cancel_l in H. by apply (append_cancel_l "/tx/") in H.
  - destruct (explorerOf inherited (default "mainnet"%string network)) as [e|]; simpl;
      [|discriminate].
    intros [= <-] [= H]. apply append_cancel_l in H. by apply (append_cancel_l "/address/") in H.
  - destruct (explorerOf inherited (default "mainnet"%string network)) as [e|]; simpl;
      [|discriminate].
    intros [= <-] [= H]. apply append_cancel_l in H. discriminate H.
  - rewrite !explorerOf_cases. simpl. discriminate.
  - rewrite !explorerOf_cases. simpl. discriminate.
Qed.

End Explorer.

Lemma explorer_url_failure_witness :
  Utils.getTxUrl (fun network => String.eqb network "toString") "0x12" (Some "toString"%string)
  = JS.Normal "undefined/tx/0x12"%string /\
  Utils.getAddressUrl (fun network => String.eqb network "toString") "0x12" (Some "toString"%string)
  = JS.Normal "undefined/address/0x12"%string.
Proof.
  apply (explorer_url_failure (fun network => String.eqb network "toString")
           "0x12" "toString"); [discriminate | discriminate | reflexivity].
Defined.

Lemma explorer_url_injective_witness :
  Utils.getAddressUrl (fun _ => false) "0x12" None
  <> JS.Normal "https://basescan.org/tx/0x12"%string.
Proof.
  apply (explorer_url_injective (fun _ => false) None "0x12" "0x12"
           "https://basescan.org/tx/0x12").
  reflexivity.
Defined.


(** ** What decides eligibility, and what is recommended *)

Section EligibilityOutcome.
Import BaseBuilderTracker BaseAnalytics.

Variable fl : Q -> Q.
Hypothesis Hfl : Number.rounding fl.
Variable chain : Chain.
Variable addr : string.
Variable w : World.
Hypothesis Hrandom : Number.is_random (rng w (drawn w)).

Lemma report_flags :
  eligibility (fst (checkRewardsEligibility fl chain addr w))
  = {| hasMinimumActivity := 10 <=? getTransactionCount chain addr;
       hasDeployedContracts := true;
       hasMinimumBalance := 10000000000000000 <=? getBalance chain addr;
       overallEligible :=
         (10 <=? getTransactionCount chain addr)
         && (10000000000000000 <=? getBalance chain addr) |}.
Proof.
  pose proof (getContractsDeployed_range fl addr w Hfl Hrandom) as Hrange.
  pose proof (parseFloat_formatEther_ge_cent fl Hfl (getBalance chain addr)) as Hbal.
  unfold checkRewardsEligibility, getBuilderMetrics.
  destruct (getContractsDeployed fl addr w) as [c w']. simpl in Hrange |- *.
  unfold setOverallEligible, initialEligibility. simpl.
  rewrite Hbal. replace (0 <? c) with true by (symmetry; apply Z.ltb_lt; lia).
  by rewrite andb_true_r.
Qed.

(** X16.  The overall eligibility of a report is decided by the transaction
    count and the balance alone: it holds exactly when the account has sent
    at least 10 transactions and holds at least 10^16 wei (0.01 ether).  The
    deployed-contracts flag never stands in the way. *)
Theorem overall_eligibility_by_count_and_balance :
  overallEligible (eligibility (fst (checkRewardsEligibility fl chain addr w))) = true <->
  10 <= getTransactionCount chain addr /\ 10000000000000000 <= getBalance chain addr.
Proof.
  rewrite report_flags. simpl. rewrite andb_true_iff, !Z.leb_le. done.
Qed.

(** X17.  The recommendations of a report are: the advice to increase
    activity when fewer than 10 transactions were sent, then the advice to
    keep a minimum balance when the balance is below 10^16 wei, then the
    advice to continue when the account is eligible.  The list is never
    empty, the advice to continue never comes with another one, and the
    advice to deploy contracts is never given. *)
Theorem report_recommendations :
  let recs := recommendations (fst (checkRewardsEligibility fl chain addr w)) in
  recs
  = (if 10 <=? getTransactionCount chain addr then []
     else ["Increase transaction activity on Base network"%string])
    ++ (if 10000000000000000 <=? getBalance chain addr then []
        else ["Maintain minimum ETH balance for gas fees"%string])
    ++ (if (10 <=? getTransactionCount chain addr)
           && (10000000000000000 <=? getBalance chain addr)
        then ["Continue consistent building activity for maximum rewards"%string]
        else []) /\
  recs <> [] /\
  ("Continue consistent building activity for maximum rewards"%string ∈ recs ->
   recs = ["Continue consistent building activity for maximum rewards"%string]) /\
  "Deploy smart contracts to demonstrate building activity"%string ∉ recs.
Proof.
  intros recs.
  assert (Hrecs : recs
    = getRecommendations (eligibility (fst (checkRewardsEligibility fl chain addr w))))
    by reflexivity.
  rewrite report_flags in Hrecs. unfold getRecommendations in Hrecs. simpl in Hrecs.
  rewrite Hrecs. clear Hrecs recs.
  destruct (10 <=? getTransactionCount chain addr);
    destruct (10000000000000000 <=? getBalance chain addr); simpl;
    (split; [reflexivity|]); (split; [discriminate|]);
    (split; [|]); rewrite list_elem_of_In; cbn [In]; intros H;
    try reflexivity; not_listed H.
Qed.

End EligibilityOutcome.

Lemma overall_eligibility_by_count_and_balance_witness :
  BaseAnalytics.overallEligible
    (BaseAnalytics.eligibility
       (fst (BaseAnalytics.checkRewardsEligibility Number.exact (sampleChain 10000000000000000 10) "0xabc"
               (sampleWorld (3 # 4) 0)))) = true.
Proof.
  apply (overall_eligibility_by_count_and_balance Number.exact).
  - split; unfold Number.exact; [intros x y H; exact H | reflexivity ..].
  - split; simpl; unfold Qle; simpl; lia.
  - simpl. lia.
Defined.

Lemma report_recommendations_witness :
  BaseAnalytics.recommendations
    (fst (BaseAnalytics.checkRewardsEligibility Number.exact (sampleChain 5 3) "0xabc"
            (sampleWorld (3 # 4) 0)))
  <> [].
Proof.
  apply (report_recommendations Number.exact).
  - split; unfold Number.exact; [intros x y H; exact H | reflexivity ..].
  - split; simpl; unfold Qle; simpl; lia.
Defined.

(** ** Balances and transfers of the integration class *)

Section IntegrationCalls.
Import Obj BaseIntegration.

(** Splits on whether the string [s] is empty, keeping both forms of the
    answer. *)
Ltac empty_or_not s :=
  let E := fresh "E" in
  destruct (String.eqb s "") eqn:E;
  [apply String.eqb_eq in E; subst s
  |pose proof (proj1 (String.eqb_neq _ _) E)].

(** X18.  [getBalance] fails, with "No address provided", exactly when the
    address argument is absent or empty and there is no wallet with a
    non-empty address.  A non-empty address argument is the account queried,
    whatever the wallet; otherwise the wallet's address is.  The result is
    the account's balance in ether: times 10^18 it is the balance in wei. *)
Theorem balance_account_choice
  (chain : Chain) (wallet : option Wallet) (address : option string) :
  (Integration.getBalance chain wallet address = Failed "No address provided" <->
   (address = None \/ address = Some ""%string) /\
   (wallet = None \/ walletAddress <$> wallet = Some ""%string)) /\
  (forall message, Integration.getBalance chain wallet address = Failed message ->
                   message = "No address provided"%string) /\
  (forall a, address = Some a -> a <> ""%string ->
             Integration.getBalance chain wallet address
             = Returned (formatEther (getBalance chain a))) /\
  (forall wl, (address = None \/ address = Some ""%string) ->
              wallet = Some wl -> walletAddress wl <> ""%string ->
              Integration.getBalance chain wallet address
              = Returned (formatEther (getBalance chain (walletAddress wl)))) /\
  (forall q, Integration.getBalance chain wallet address = Returned q ->
             exists account,
               (q * inject_Z 1000000000000000000 == inject_Z (getBalance chain account))%Q).
Proof.
  assert (Hround : forall n : Z,
             (formatEther n * inject_Z 1000000000000000000 == inject_Z n)%Q).
  { intros n. unfold formatEther, Qeq, Qmult, inject_Z. cbn [Qnum Qden].
    rewrite !Pos2Z.inj_mul. ring. }
  unfold Integration.getBalance, Integration.accountOf.
  destruct address as [a|]; [empty_or_not a|];
    (destruct wallet as [[wa]|]; simpl; [empty_or_not wa|]);
    simpl; rewrite ?String.eqb_refl;
    repeat match goal with E : (_ =? _)%string = false |- _ => rewrite E; clear E end.
  all: repeat split.
  all: try (intros Hx; discriminate Hx).
  all: try (by left).
  all: try (by right).
  all: try (intros [[Hx|Hx] [Hy|Hy]]; congruence).
  all: try (by intros ? [= <-]).
  all: try (intros ? [= <-]; eexists; apply Hround).
  all: try (intros ? [= <-] ?; done).
  all: try (intros ? [Hx|Hx] [= <-] ?; simpl in *; congruence).
Qed.

Lemma balance_account_choice_witness :
  Integration.getBalance (sampleChain 5 3) (Some (mkWallet "0x01")) (Some "0xabc"%string)
  = Returned (formatEther (getBalance (sampleChain 5 3) "0xabc")).
Proof.
  apply (balance_account_choice (sampleChain 5 3) (Some (mkWallet "0x01"))
           (Some "0xabc"%string)); [reflexivity | discriminate].
Defined.

(** X19.  With a wallet and a parsed amount, [sendETH] hands the wallet a
    transaction in which every field of the gas options stands as given,
    [to] and [value] included when the options carry them; [to] and
    [value] are the arguments only if the options do not name them, and no
    other field is present.  Without a wallet it fails with "Wallet not
    initialized" and hands nothing to the wallet; a failure of the wallet is
    passed on with its message unchanged. *)
Theorem send_eth_transaction {R : Type}
  (send : gmap string field -> outcome R) (wl : Wallet) (to : string) (v : Z)
  (parsed : outcome Z) (gasOptions : gmap string field) :
  let tx := Integration.ethTransaction to v gasOptions in
  Integration.sendETH send (Some wl) to (Returned v) gasOptions = send tx /\
  (forall key x, gasOptions !! key = Some x -> tx !! key = Some x) /\
  (gasOptions !! "to" = None -> tx !! "to" = Some (FString to)) /\
  (gasOptions !! "value" = None -> tx !! "value" = Some (FBigInt v)) /\
  (forall key, gasOptions !! key = None ->
               key <> "to"%string -> key <> "value"%string -> tx !! key = None) /\
  Integration.sendETH send None to parsed gasOptions = Failed "Wallet not initialized".
Proof.
  intros tx. unfold tx, Integration.ethTransaction. split; [reflexivity|].
  split; [|split; [|split; [|split]]].
  - intros key x Hkey. by apply lookup_union_Some_l.
  - intros Hnone. rewrite lookup_union_r by done.
    rewrite lookup_insert_ne by done. apply lookup_singleton_eq.
  - intros Hnone. rewrite lookup_union_r by done. apply lookup_insert_eq.
  - intros key Hnone Hto Hvalue. rewrite lookup_union_r by done.
    rewrite lookup_insert_ne by done. by apply lookup_singleton_ne.
  - reflexivity.
Qed.

Lemma send_eth_transaction_witness :
  Integration.ethTransaction "0xabc" 7 {["to" := FString "0xdef"]} !! "to"
  = Some (FString "0xdef").
Proof.
  apply (send_eth_transaction (fun _ => Returned 0) (mkWallet "0x01") "0xabc" 7
           (Returned 7) {["to" := FString "0xdef"]}).
  reflexivity.
Defined.

End IntegrationCalls.
